(** * The PDF chat widget: a shallow embedding of the React components

    The repository holds four near-identical variants of one chat component
    (ChatBot, and three revisions of ResizableChatBot).  They share the
    message transcript, the submit handler and its error classification; the
    resizable ones add the expand/collapse flag and the drag handle.

    What is modelled, and how:
    - a JavaScript string is its sequence of UTF-16 code units;
    - a value read out of a JSON body is a [json] tree, [undefined] is [None];
    - a component instance is a record of its [useState] cells, its refs and
      the listeners it has registered on [document]; a listener is a closure,
      so it carries the values of the render that created it;
    - an event handler is a computation in a small monad with state, a log of
      the calls made to the collaborators (toasts, fetch, the parent's
      callback) and JavaScript exceptions;
    - the [async] submit handler is split at its single [await fetch]: the
      part that runs inside the submit event, and the part that runs when
      the request settles.
    The ChatBot variant has no panel; it uses the transcript, the input and
    [isProcessing] only, and its handler is the same.  Console output and
    the scrolling of the transcript into view are not modelled. *)

From Stdlib Require Import ZArith NArith QArith List String Ascii Bool Lia.
From Stdlib Require Import DecimalString.
Import ListNotations.

Set Warnings "-register-all".
Local Open Scope N_scope.

(** ** JavaScript strings *)

Module JsString.

(** A string is a list of UTF-16 code units. *)
Definition jsstring := list N.

Definition eqb (a b : jsstring) : bool :=
  if list_eq_dec N.eq_dec a b then true else false.

(** The code units of one Unicode scalar value. *)
Definition utf16 (cp : N) : jsstring :=
  if cp <? 65536 then [cp]
  else [55296 + (cp - 65536) / 1024; 56320 + (cp - 65536) mod 1024].

(** Source text is UTF-8; [decode] reads it into code units.  A byte that
    does not start a well-formed sequence is kept as it is. *)
Fixpoint decode (bs : list N) : jsstring :=
  match bs with
  | [] => []
  | b0 :: r0 =>
      if b0 <? 192 then b0 :: decode r0
      else match r0 with
      | [] => [b0]
      | b1 :: r1 =>
          if b0 <? 224 then utf16 ((b0 - 192) * 64 + (b1 - 128)) ++ decode r1
          else match r1 with
          | [] => [b0; b1]
          | b2 :: r2 =>
              if b0 <? 240
              then utf16 ((b0 - 224) * 4096 + (b1 - 128) * 64 + (b2 - 128))
                     ++ decode r2
              else match r2 with
              | [] => [b0; b1; b2]
              | b3 :: r3 =>
                  utf16 ((b0 - 240) * 262144 + (b1 - 128) * 4096
                         + (b2 - 128) * 64 + (b3 - 128)) ++ decode r3
              end
          end
      end
  end.

Fixpoint bytes (s : string) : list N :=
  match s with
  | EmptyString => []
  | String c r => N_of_ascii c :: bytes r
  end.

(** A string literal of the source. *)
Definition lit (s : string) : jsstring := decode (bytes s).

(** [String.prototype.trim] strips white space and line terminators. *)
Definition isWhiteSpace (c : N) : bool :=
  (9 <=? c) && (c <=? 13)
  || (c =? 32) || (c =? 160) || (c =? 5760)
  || (8192 <=? c) && (c <=? 8202)
  || (c =? 8232) || (c =? 8233) || (c =? 8239) || (c =? 8287)
  || (c =? 12288) || (c =? 65279).

Fixpoint trimStart (s : jsstring) : jsstring :=
  match s with
  | [] => []
  | c :: r => if isWhiteSpace c then trimStart r else s
  end.

Definition trimEnd (s : jsstring) : jsstring := rev (trimStart (rev s)).

Definition trim (s : jsstring) : jsstring := trimEnd (trimStart s).

Fixpoint startsWith (s p : jsstring) : bool :=
  match p, s with
  | [], _ => true
  | _ :: _, [] => false
  | a :: p', b :: s' => (a =? b) && startsWith s' p'
  end.

(** [String.prototype.includes]. *)
Fixpoint includes (s p : jsstring) : bool :=
  startsWith s p ||
  match s with
  | [] => false
  | _ :: r => includes r p
  end.

(** A string is falsy exactly when it is empty. *)
Definition nonEmpty (s : jsstring) : bool :=
  match s with [] => false | _ :: _ => true end.

(** The decimal rendering of a non-negative integer. *)
Definition ofN (n : N) : jsstring :=
  lit (NilZero.string_of_uint (N.to_uint n)).

End JsString.
Import JsString.

(** ** JavaScript values that come out of a JSON body *)

Module Js.

(** A JSON number is a double.  The code only ever tests a number for
    truthiness and renders it into a string, so a number is carried as
    these two observations. *)
Record jsnumber := mkNumber {
  numTruthy : bool;
  numString : jsstring
}.

Inductive json :=
| JNull
| JBool (b : bool)
| JNumber (n : jsnumber)
| JString (s : jsstring)
| JArray (xs : list json)
| JObject (props : list (jsstring * json)).

(** What an expression evaluates to: [None] is [undefined]. *)
Definition jsval := option json.

(** What a [throw] carries.  Every exception raised here is an [Error]
    instance; [NonError] stands for a rejection with any other value. *)
Inductive thrown :=
| ErrorObj (message : jsstring)
| NonError.

Inductive result (A : Type) :=
| Ok (a : A)
| Throw (e : thrown).
Arguments Ok {A} a.
Arguments Throw {A} e.

(** The engine's wording of its own TypeErrors is not fixed by the
    language. *)
Inductive TypeErrorKind :=
| ReadOfNullish (prop : jsstring)
| NotAFunction (callee : jsstring)
| NoPrimitiveValue.

(** The own property [k] of a parsed object. *)
Fixpoint lookup (k : jsstring) (props : list (jsstring * json)) : jsval :=
  match props with
  | [] => None
  | (k', v) :: r => if JsString.eqb k k' then Some v else lookup k r
  end.

Definition truthy (v : jsval) : bool :=
  match v with
  | None => false
  | Some JNull => false
  | Some (JBool b) => b
  | Some (JNumber n) => numTruthy n
  | Some (JString s) => nonEmpty s
  | Some (JArray _) => true
  | Some (JObject _) => true
  end.

(** [a || b] *)
Definition or_else (a : jsval) (b : jsval) : jsval :=
  if truthy a then a else b.

(** ToString of a defined value; [None] when the conversion throws.  A
    parsed object that has an own [toString] property (never a function)
    has no primitive value. *)
Fixpoint toStringJ (v : json) : option jsstring :=
  match v with
  | JNull => Some (lit "null")
  | JBool true => Some (lit "true")
  | JBool false => Some (lit "false")
  | JNumber n => Some (numString n)
  | JString s => Some s
  | JArray xs =>
      (fix join (l : list json) : option jsstring :=
         match l with
         | [] => Some []
         | x :: r =>
             match (match x with JNull => Some [] | _ => toStringJ x end),
                   join r with
             | Some a, Some b =>
                 Some (a ++ (match r with [] => [] | _ :: _ => lit "," end) ++ b)
             | _, _ => None
             end
         end) xs
  | JObject props =>
      match lookup (lit "toString") props with
      | Some _ => None
      | None => Some (lit "[object Object]")
      end
  end.

Section Engine.

Variable typeErrorMessage : TypeErrorKind -> jsstring.

Definition TypeError {A} (k : TypeErrorKind) : result A :=
  Throw (ErrorObj (typeErrorMessage k)).

(** [v.k] for a property name [k] that no built-in prototype defines. *)
Definition getProp (v : jsval) (k : jsstring) : result jsval :=
  match v with
  | None | Some JNull => TypeError (ReadOfNullish k)
  | Some (JObject props) => Ok (lookup k props)
  | Some _ => Ok None
  end.

(** [v[0]] *)
Definition getIndex0 (v : jsval) : result jsval :=
  match v with
  | None | Some JNull => TypeError (ReadOfNullish (lit "0"))
  | Some (JObject props) => Ok (lookup (lit "0") props)
  | Some (JArray xs) => Ok (hd_error xs)
  | Some (JString (c :: _)) => Ok (Some (JString [c]))
  | Some _ => Ok None
  end.

(** [v?.k] *)
Definition getPropOpt (v : jsval) (k : jsstring) : result jsval :=
  match v with
  | None | Some JNull => Ok None
  | _ => getProp v k
  end.

(** [new Error(v)] for a defined [v]: the message is [ToString(v)]. *)
Definition newError (v : json) : result thrown :=
  match toStringJ v with
  | Some m => Ok (ErrorObj m)
  | None => TypeError NoPrimitiveValue
  end.

End Engine.

End Js.
Import Js.

(** ** The request each variant sends *)

(** The four variants of the component in the repository. *)
Inductive Variant :=
| ChatBot
| ResizableChatBot_a
| ResizableChatBot_b
| ResizableChatBot_c.

Module Prompt.

Local Open Scope string_scope.

Definition nl : string := String (ascii_of_nat 10) EmptyString.
Definition dq : string := String (ascii_of_nat 34) EmptyString.

(** The lines of a template literal. *)
Definition text (lines : list string) : string := String.concat nl lines.

Definition ChatBot_prefix : string :=
  text [
    "You are a helpful teacher that answers questions related to OCR text from a PDF. You can also use your own knowledge when the answer isn't in the OCR text, ensuring the user's doubt is clarified effectively.";
    "      ";
    "      FORMATTING REQUIREMENTS - STRICTLY FOLLOW:";
    "      ";
    "      1. **Always start with a title using <h3><strong>Title: [Your Topic]</strong></h3>**";
    "      ";
    "      2. **Use EMOJI BULLET POINTS for all lists:**";
    "         - Main points: Use 🔹 or 📌 or ⭐ ";
    "         - Sub-points: Use 🔸 or ➤ or ▪️";
    "         - Steps: Use 1️⃣ 2️⃣ 3️⃣ or 📝 📋 ✅";
    "      ";
    "      3. **FORCE BULLET POINT FORMAT - Never use regular text paragraphs:**";
    "         - Always use <ul><li> tags with emoji bullets";
    "         - Add proper spacing with <br/> tags";
    "         - Use <strong> for emphasis";
    "      ";
    "      4. **Example structure to ALWAYS follow:**";
    "         <h3><strong>Title: Your Response Topic</strong></h3>";
    "         <ul>";
    "         <li>🔹 <strong>Main Point 1</strong>:<br/>";
    "         🔸 Sub-point explanation<br/>";
    "         🔸 Another sub-point with details</li>";
    "         <br/>";
    "         <li>📌 <strong>Main Point 2</strong>:<br/>";
    "         🔸 Clear explanation in simple terms<br/>";
    "         🔸 Real-life example or application</li>";
    "         </ul>";
    "      ";
    "      5. **For numbered steps, use emoji numbers:**";
    "         <ol>";
    "         <li>1️⃣ <strong>First step</strong>: Explanation</li>";
    "         <li>2️⃣ <strong>Second step</strong>: Details</li>";
    "         <li>3️⃣ <strong>Final step</strong>: Conclusion</li>";
    "         </ol>";
    "      ";
    "      CONTENT REQUIREMENTS:";
    "      - Use EXTREMELY simple language (7-year-old level)";
    "      - Always prioritize answering the user's question clearly and specifically";
    "      - Relate the answer to the OCR text whenever possible, explaining the relevant sections";
    "      - If the answer isn't in the OCR text, use your own knowledge to clarify the user's doubt";
    "      - Add helpful examples, real-life applications, and famous mnemonics when relevant";
    "      - Break complex information into simple emoji bullet points";
    "      - Always be supportive and encouraging";
    "      ";
    "      OCR Content:";
    "      "
  ].

Definition ChatBot_suffix : string :=
  text [
    EmptyString;
    "      ";
    "      When the user asks a question, answer by referencing the OCR text if relevant, but feel free to use external knowledge if needed to ensure the user's doubt is fully addressed. Always be clear, supportive, and well-formatted according to the above guidelines."
  ].

Definition ResizableChatBot_a_prefix : string :=
  text [
    "You are a helpful teacher that answers questions related to PDF content using structured, well-formatted responses.";
    EmptyString;
    "FORMATTING REQUIREMENTS - STRICTLY FOLLOW:";
    EmptyString;
    "1. **Always start with a title using <h3><strong>Title: [Your Topic]</strong></h3>**";
    EmptyString;
    "2. **Use EMOJI BULLET POINTS for all lists:**";
    "   - Main points: Use 🔹 or 📌 or ⭐ ";
    "   - Sub-points: Use 🔸 or ➤ or ▪️";
    "   - Steps: Use 1️⃣ 2️⃣ 3️⃣ or 📝 📋 ✅";
    EmptyString;
    "3. **FORCE BULLET POINT FORMAT - Never use regular text paragraphs:**";
    "   - Always use <ul><li> tags with emoji bullets";
    "   - Add proper spacing with <br/> tags";
    "   - Use <strong> for emphasis";
    EmptyString;
    "4. **Example structure to ALWAYS follow:**";
    "   <h3><strong>Title: Your Response Topic</strong></h3>";
    "   <ul>";
    "   <li>🔹 <strong>Main Point 1</strong>:<br/>";
    "   🔸 Sub-point explanation<br/>";
    "   🔸 Another sub-point with details</li>";
    "   <br/>";
    "   <li>📌 <strong>Main Point 2</strong>:<br/>";
    "   🔸 Clear explanation in simple terms<br/>";
    "   🔸 Real-life example or application</li>";
    "   </ul>";
    EmptyString;
    "5. **For numbered steps, use emoji numbers:**";
    "   <ol>";
    "   <li>1️⃣ <strong>First step</strong>: Explanation</li>";
    "   <li>2️⃣ <strong>Second step</strong>: Details</li>";
    "   <li>3️⃣ <strong>Final step</strong>: Conclusion</li>";
    "   </ol>";
    EmptyString;
    "CONTENT REQUIREMENTS:";
    "- Use EXTREMELY simple language (7-year-old level)";
    "- Give specific answer according to user's question related to pdf content";
    "- Add helpful examples and real-life applications";
    "- Add famous mnemonics related to relavent information";
    "- Break complex information into simple emoji bullet point";
    "- Always be supportive and encouraging";
    EmptyString;
    "PDF Content:";
    EmptyString
  ].

Definition ResizableChatBot_a_suffix : string :=
  text [
    EmptyString;
    EmptyString;
    "REMEMBER: ALWAYS use the structured format with emoji bullets - NEVER respond in plain paragraphs!"
  ].

Definition ResizableChatBot_b_prefix : string :=
  text [
    "You are an intelligent teaching assistant that provides clear, helpful answers about PDF content. Use OCR text when relevant, otherwise use your knowledge to fully address the user's question.";
    "      ";
    "      KEY PRINCIPLES:";
    "      - **Answer directly** what the user is asking - don't add unnecessary definitions if not requested";
    "      - **Adapt your format** to best suit the question type (explanation, steps, comparison, examples, etc.)";
    "      - **Use OCR content** when it helps answer the question, but supplement with your knowledge when needed";
    "      - **Keep language simple** and accessible (middle school level)";
    "      - **Be conversational** yet informative";
    "      ";
    "      FLEXIBLE FORMATTING GUIDE:";
    "      Choose the BEST structure for each question type:";
    "      ";
    "      📝 **For Explanations/Concepts:**";
    "      <h3>Understanding [Topic]</h3>";
    "      <ul>";
    "      <li>⭐ <strong>Core Idea</strong>: Simple definition<br/>";
    "      <li>🔹 <strong>Key Points</strong>:<br/>";
    "        ▪️ Point 1<br/>";
    "        ▪️ Point 2<br/>";
    "      <li>📌 <strong>Real Example</strong>: Practical illustration";
    "      </ul>";
    "      ";
    "      🔄 **For Processes/Steps:**";
    "      <h3>Steps to [Action]</h3>";
    "      <ol>";
    "      <li>1️⃣ <strong>First</strong>: What to do initially</li>";
    "      <li>2️⃣ <strong>Next</strong>: Following actions</li>";
    "      <li>3️⃣ <strong>Finally</strong>: Completion step</li>";
    "      </ol>";
    "      ";
    "      🔍 **For Comparisons:**";
    "      <h3>Comparing [Items]</h3>";
    "      <ul>";
    "      <li>✅ <strong>Similarities</strong>:<br/>";
    "        ▪️ Common aspect 1<br/>";
    "        ▪️ Common aspect 2</li>";
    "      <li>❌ <strong>Differences</strong>:<br/>";
    "        ▪️ Difference 1<br/>";
    "        ▪️ Difference 2</li>";
    "      </ul>";
    "      ";
    "      🎯 **For Quick Answers:**";
    "      <h3>Quick Answer</h3>";
    "      <ul>";
    "      <li>📝 Direct answer to the specific question</li>";
    "      <li>🔍 Additional context if needed</li>";
    "      <li>💡 Helpful tip or application</li>";
    "      </ul>";
    "      ";
    "      SMART DECISION MAKING:";
    ("      - If user asks " ++ dq ++ "what is" ++ dq ++ " → Provide clear definition + key characteristics");
    ("      - If user asks " ++ dq ++ "how to" ++ dq ++ " → Provide step-by-step instructions  ");
    ("      - If user asks " ++ dq ++ "why" ++ dq ++ " → Explain reasons and causes");
    ("      - If user asks " ++ dq ++ "compare" ++ dq ++ " → Use comparison format");
    "      - If user asks quick fact → Give direct answer first";
    "      ";
    "      OCR Content for reference:";
    "      "
  ].

Definition ResizableChatBot_b_suffix : string :=
  text [
    EmptyString;
    "      ";
    "      **CRITICAL**: Answer exactly what the user is asking in the most appropriate format. Be conversational but thorough."
  ].

Definition ResizableChatBot_c_prefix : string :=
  text [
    "You are a helpful teacher that answers questions about PDF content in the ABSOLUTE SIMPLEST language possible.";
    "              You are given OCR text extracted from a PDF document and must answer questions related to it — whether they are directly in the text or not.";
    "              ";
    "              IMPORTANT: Your answers must be COMPLETE and include ALL relevant information from the PDF text.";
    "              ";
    "              Follow these strict guidelines:";
    "              ";
    "              1. Use EXTREMELY simple language — define and explain from basics as if to a 7-year-old student";
    "              2. Format answers EXCLUSIVELY in bullet points (<ui> and <li>) with proper spacing between each point";
    "              3. Every bullet point MUST be separated by one line break for readability";
    "              4. Use <strong> HTML tags for important keywords, concepts and definitions";
    "              5. Keep explanations complete — do not leave out ANY important details";
    "              6. If asked to explain any concept, give 1-2 very simple examples";
    "              7. If the answer is not in the text, use your own knowledge to help but mention this fact";
    "              8. ALWAYS add helpful examples or real-life applications";
    "              9. NEVER use technical or medical jargon - explain everything in simple terms";
    "              10. ALWAYS format using HTML <ul><li> for bullet points with proper spacing";
    "              11. Add clear line breaks between different parts of your answer";
    "              12. If asked, create simple tables, comparisons, or explanations using HTML formatting";
    "              13. Always be helpful and supportive";
    "              14. NEVER skip any relevant information from the PDF text in your answer";
    "              15. If the information is complex, break it down into multiple simple points";
    "            ";
    "Here's the PDF content to reference:";
    EmptyString
  ].

Definition ResizableChatBot_c_suffix : string :=
  text [
    EmptyString;
    EmptyString;
    "Please answer questions related to content."
  ].

Definition prefix (v : Variant) : jsstring :=
  lit match v with
      | ChatBot => ChatBot_prefix
      | ResizableChatBot_a => ResizableChatBot_a_prefix
      | ResizableChatBot_b => ResizableChatBot_b_prefix
      | ResizableChatBot_c => ResizableChatBot_c_prefix
      end.

Definition suffix (v : Variant) : jsstring :=
  lit match v with
      | ChatBot => ChatBot_suffix
      | ResizableChatBot_a => ResizableChatBot_a_suffix
      | ResizableChatBot_b => ResizableChatBot_b_suffix
      | ResizableChatBot_c => ResizableChatBot_c_suffix
      end.

(** The template literal of the system message, [${ocrText}] filled in. *)
Definition systemPrompt (v : Variant) (ocrText : jsstring) : jsstring :=
  (prefix v ++ ocrText ++ suffix v)%list.

End Prompt.

Record ChatMessage := mkChatMessage {
  chatRole : jsstring;
  chatContent : jsstring
}.

Record RequestBody := mkRequestBody {
  model : jsstring;
  requestMessages : list ChatMessage;
  temperature : Q;
  max_tokens : N
}.

Record RequestInit := mkRequestInit {
  method : jsstring;
  authorization : jsstring;
  contentType : jsstring;
  body : RequestBody
}.

Definition GROQ_API_URL : jsstring :=
  lit "https://api.groq.com/openai/v1/chat/completions".

Definition variantTemperature (v : Variant) : Q :=
  match v with
  | ChatBot => 5 # 10
  | ResizableChatBot_a => 5 # 10
  | ResizableChatBot_b => 6 # 10
  | ResizableChatBot_c => 9 # 10
  end.

Definition variantMaxTokens (v : Variant) : N :=
  match v with
  | ChatBot => 2000
  | ResizableChatBot_a => 2000
  | ResizableChatBot_b => 2000
  | ResizableChatBot_c => 1000
  end.

Definition requestBody (v : Variant) (ocrText currentInput : jsstring)
  : RequestBody :=
  {| model := lit "meta-llama/llama-4-scout-17b-16e-instruct";
     requestMessages :=
       [ {| chatRole := lit "system";
            chatContent := Prompt.systemPrompt v ocrText |};
         {| chatRole := lit "user";
            chatContent := currentInput |} ];
     temperature := variantTemperature v;
     max_tokens := variantMaxTokens v |}.

(** ** The component instance *)

Inductive Role := user | assistant.

Record Message := mkMessage {
  role : Role;
  content : jsstring
}.

(** The [useState] cells of the component.  A render sees one value of this
    record, and every function the render creates closes over that value. *)
Record Cells := mkCells {
  messages : list Message;
  input : jsstring;
  isProcessing : bool;
  isExpanded : bool;
  chatHeight : Z;
  isResizing : bool
}.

Definition Message_eq_dec (a b : Message) : {a = b} + {a <> b}.
Proof. repeat decide equality. Defined.

Definition Cells_eq_dec (a b : Cells) : {a = b} + {a <> b}.
Proof. repeat decide equality. Defined.

(** What lives across renders: the current cells, the two refs of the drag
    handle, and the [mousemove]/[mouseup] listener pairs registered on
    [document], each named by the render whose closures they are. *)
Record Instance := mkInstance {
  cells : Cells;
  startYRef : Z;
  startHeightRef : Z;
  listeners : list Cells
}.

(** Calls made to the collaborators, in order. *)
Inductive Effect :=
| PreventDefault
| ToastError (msg : jsstring)
| ToastLoading (msg : jsstring)
| ToastSuccess (msg : jsstring)
| ToastDismiss (id : N)
| Fetch (url : jsstring) (init : RequestInit)
| OnToggle.

(** The seeded greeting and the content of the placeholder. *)
Definition greeting : Message :=
  {| role := assistant;
     content := lit "Hello! I can answer questions about the PDF content. What would you like to know?" |}.

Definition Thinking : jsstring := lit "Thinking...".

Definition initialCells : Cells :=
  {| messages := [greeting];
     input := [];
     isProcessing := false;
     isExpanded := false;
     chatHeight := 400;
     isResizing := false |}.

Definition initialInstance : Instance :=
  {| cells := initialCells;
     startYRef := 0;
     startHeightRef := 0;
     listeners := [] |}.

(** ** Handlers: state, collaborator calls and exceptions *)

Class Monad (M : Type -> Type) := {
  ret : forall {A}, A -> M A;
  bind : forall {A B}, M A -> (A -> M B) -> M B
}.

Declare Scope monad_scope.
Delimit Scope monad_scope with monad.
Notation "x <- c1 ;; c2" := (bind c1 (fun x => c2))
  (at level 61, c1 at next level, right associativity) : monad_scope.
Notation "c1 ;; c2" := (bind c1 (fun _ => c2))
  (at level 61, right associativity) : monad_scope.
Local Open Scope monad_scope.

#[global] Instance result_Monad : Monad result := {|
  ret := fun A a => Ok a;
  bind := fun A B m k => match m with Ok a => k a | Throw e => Throw e end
|}.

Definition Handler (A : Type) : Type :=
  Instance -> list Effect -> result A * Instance * list Effect.

#[global] Instance Handler_Monad : Monad Handler := {|
  ret := fun A a i l => (Ok a, i, l);
  bind := fun A B m k i l =>
    match m i l with
    | (Ok a, i', l') => k a i' l'
    | (Throw e, i', l') => (Throw e, i', l')
    end
|}.

Module Handlers.

Definition lift {A} (r : result A) : Handler A := fun i l => (r, i, l).

Definition throw {A} (e : thrown) : Handler A := lift (Throw e).

Definition call (e : Effect) : Handler unit :=
  fun i l => (Ok tt, i, l ++ [e]).

Definition modify (f : Instance -> Instance) : Handler unit :=
  fun i l => (Ok tt, f i, l).

Definition gets {A} (f : Instance -> A) : Handler A :=
  fun i l => (Ok (f i), i, l).

(** [try { m } catch (e) { h e }] *)
Definition tryCatch {A} (m : Handler A) (h : thrown -> Handler A)
  : Handler A :=
  fun i l =>
    match m i l with
    | (Throw e, i', l') => h e i' l'
    | r => r
    end.

(** [try { m } finally { f }] *)
Definition tryFinally {A} (m : Handler A) (f : Handler unit) : Handler A :=
  fun i l =>
    match m i l with
    | (r, i', l') =>
        match f i' l' with
        | (Ok _, i'', l'') => (r, i'', l'')
        | (Throw e, i'', l'') => (Throw e, i'', l'')
        end
    end.

(** [for (h of hs) h()], stopping at the first exception. *)
Fixpoint forEach {A} (xs : list A) (h : A -> Handler unit) : Handler unit :=
  match xs with
  | [] => ret tt
  | x :: r => h x ;; forEach r h
  end.

Definition onCells (f : Cells -> Cells) : Handler unit :=
  modify (fun i => {| cells := f (cells i);
                      startYRef := startYRef i;
                      startHeightRef := startHeightRef i;
                      listeners := listeners i |}).

(** The state setters.  [setMessages] is always called with an updater
    function, which React applies to the latest value. *)
Definition setMessages (f : list Message -> list Message) : Handler unit :=
  onCells (fun c => {| messages := f (messages c); input := input c;
                       isProcessing := isProcessing c;
                       isExpanded := isExpanded c;
                       chatHeight := chatHeight c;
                       isResizing := isResizing c |}).

Definition setInput (v : jsstring) : Handler unit :=
  onCells (fun c => {| messages := messages c; input := v;
                       isProcessing := isProcessing c;
                       isExpanded := isExpanded c;
                       chatHeight := chatHeight c;
                       isResizing := isResizing c |}).

Definition setIsProcessing (v : bool) : Handler unit :=
  onCells (fun c => {| messages := messages c; input := input c;
                       isProcessing := v;
                       isExpanded := isExpanded c;
                       chatHeight := chatHeight c;
                       isResizing := isResizing c |}).

Definition setIsExpanded (v : bool) : Handler unit :=
  onCells (fun c => {| messages := messages c; input := input c;
                       isProcessing := isProcessing c;
                       isExpanded := v;
                       chatHeight := chatHeight c;
                       isResizing := isResizing c |}).

Definition setChatHeight (v : Z) : Handler unit :=
  onCells (fun c => {| messages := messages c; input := input c;
                       isProcessing := isProcessing c;
                       isExpanded := isExpanded c;
                       chatHeight := v;
                       isResizing := isResizing c |}).

Definition setIsResizing (v : bool) : Handler unit :=
  onCells (fun c => {| messages := messages c; input := input c;
                       isProcessing := isProcessing c;
                       isExpanded := isExpanded c;
                       chatHeight := chatHeight c;
                       isResizing := v |}).

Definition setStartYRef (v : Z) : Handler unit :=
  modify (fun i => {| cells := cells i; startYRef := v;
                      startHeightRef := startHeightRef i;
                      listeners := listeners i |}).

Definition setStartHeightRef (v : Z) : Handler unit :=
  modify (fun i => {| cells := cells i; startYRef := startYRef i;
                      startHeightRef := v;
                      listeners := listeners i |}).

(** [document.addEventListener] of the two drag listeners of a render; a
    listener that is already registered is not added again. *)
Definition addListeners (render : Cells) : Handler unit :=
  modify (fun i => {| cells := cells i; startYRef := startYRef i;
                      startHeightRef := startHeightRef i;
                      listeners :=
                        if in_dec Cells_eq_dec render (listeners i)
                        then listeners i
                        else listeners i ++ [render] |}).

Definition removeListeners (render : Cells) : Handler unit :=
  modify (fun i => {| cells := cells i; startYRef := startYRef i;
                      startHeightRef := startHeightRef i;
                      listeners := remove Cells_eq_dec render (listeners i) |}).

End Handlers.
Import Handlers.

(** ** The remote service, as the handler observes it *)

(** The outcome of parsing the body text as JSON. *)
Inductive ParseResult :=
| Parsed (v : json)
| SyntaxError (message : jsstring).

(** Reading the body either fails, or gives its text, which parses or not. *)
Inductive BodyRead :=
| BodyFails (e : thrown)
| BodyText (text : jsstring) (parsed : ParseResult).

Record Response := mkResponse {
  status : N;
  bodyRead : BodyRead
}.

(** How [await fetch(...)] settles. *)
Inductive FetchOutcome :=
| Rejected (e : thrown)
| Resolved (response : Response).

(** [response.ok] *)
Definition ok (response : Response) : bool :=
  (200 <=? status response) && (status response <=? 299).

(** [await response.text()] *)
Definition response_text (response : Response) : result jsstring :=
  match bodyRead response with
  | BodyFails e => Throw e
  | BodyText text _ => Ok text
  end.

(** [JSON.parse] of the text read from [response]. *)
Definition JSON_parse (response : Response) : result json :=
  match bodyRead response with
  | BodyFails e => Throw e
  | BodyText _ (Parsed v) => Ok v
  | BodyText _ (SyntaxError m) => Throw (ErrorObj m)
  end.

(** [await response.json()] *)
Definition response_json (response : Response) : result json :=
  JSON_parse response.

(** What the component is given: its variant's constants, its props that do
    not change, the build-time credential and the engine's error wording. *)
Record Env := mkEnv {
  typeErrorMessage : TypeErrorKind -> jsstring;
  variant : Variant;
  ocrText : jsstring;
  GROQ_API_KEY : option jsstring
}.

Section Component.

Variable env : Env.

Let getProp := Js.getProp (typeErrorMessage env).
Let getIndex0 := Js.getIndex0 (typeErrorMessage env).
Let getPropOpt := Js.getPropOpt (typeErrorMessage env).
Let newError := Js.newError (typeErrorMessage env).
Let TypeError {A} := @Js.TypeError (typeErrorMessage env) A.

(** [!GROQ_API_KEY] is false for a non-empty string only. *)
Definition hasApiKey : bool :=
  match GROQ_API_KEY env with
  | Some k => nonEmpty k
  | None => false
  end.

Definition bearer : jsstring :=
  lit "Bearer " ++ match GROQ_API_KEY env with Some k => k | None => lit "undefined" end.

Definition notThinking (m : Message) : bool :=
  negb (JsString.eqb (content m) Thinking).

(** *** The drag handle *)

Definition handleMouseMove (render : Cells) (clientY : Z) : Handler unit :=
  if negb (isResizing render) then ret tt
  else
    startY <- gets startYRef ;;
    startHeight <- gets startHeightRef ;;
    let deltaY := (startY - clientY)%Z in
    let newHeight := Z.max 200 (Z.min 600 (startHeight + deltaY)) in
    setChatHeight newHeight.

Definition handleMouseUp (render : Cells) : Handler unit :=
  setIsResizing false ;;
  removeListeners render.

Definition handleMouseDown (render : Cells) (clientY : Z) : Handler unit :=
  setIsResizing true ;;
  setStartYRef clientY ;;
  setStartHeightRef (chatHeight render) ;;
  addListeners render.

(** *** The visibility effect, run after a render in which [isVisible]
    differs from the previous render's (and after the first render) *)

Definition useEffect_isVisible (isVisible : bool) (render : Cells)
  : Handler unit :=
  if isVisible && negb (isExpanded render) then setIsExpanded true
  else ret tt.

(** *** Submitting a question *)

(** The message the handler throws for a response that is not [ok]. *)
Definition errorMessage_notOk (response : Response) (errorText : jsstring)
  : json :=
  let fallback := JString (lit "Failed to get response from AI") in
  let parsed : result json :=
    errorData <- JSON_parse response ;;
    error <- getProp (Some errorData) (lit "error") ;;
    a <- getPropOpt error (lit "message") ;;
    if truthy a then ret (match a with Some v => v | None => fallback end)
    else
      b <- getProp (Some errorData) (lit "message") ;;
      if truthy b then ret (match b with Some v => v | None => fallback end)
      else ret fallback in
  match parsed with
  | Ok v => v
  | Throw _ =>
      JString (lit "HTTP " ++ ofN (status response) ++ lit ": " ++ errorText)
  end.

(** The checks on a parsed success body, up to the reply text. *)
Definition aiResponse_of (data : json) : result jsstring :=
  let invalid := Throw (ErrorObj (lit "Invalid response format from API")) in
  let empty := Throw (ErrorObj (lit "Empty response from AI")) in
  choices <- getProp (Some data) (lit "choices") ;;
  if negb (truthy choices) then invalid else
  choice <- getIndex0 choices ;;
  if negb (truthy choice) then invalid else
  message <- getProp choice (lit "message") ;;
  if negb (truthy message) then invalid else
  aiResponse <- getProp message (lit "content") ;;
  if negb (truthy aiResponse) then empty else
  match aiResponse with
  | Some (JString s) =>
      if JsString.eqb (trim s) [] then empty else ret s
  | _ => TypeError (NotAFunction (lit "aiResponse.trim"))
  end.

(** The text the [catch] block shows for what was thrown. *)
Definition classify (error : thrown) : jsstring :=
  match error with
  | ErrorObj message =>
      if includes message (lit "Failed to fetch")
         || includes message (lit "NetworkError")
      then lit "Network error. Please check your internet connection and try again."
      else if includes message (lit "401")
      then lit "Authentication error. The Groq API key may be invalid."
      else if includes message (lit "429")
      then lit "Rate limit exceeded. Please wait a moment and try again."
      else if includes message (lit "404")
      then lit "The AI model is not available. Please try again later."
      else lit "Error: " ++ message
  | NonError =>
      lit "Sorry, I encountered an error while processing your question."
  end.

Definition retrySuggestion : jsstring :=
  lit " Please try again or rephrase your question.".

Definition dismissLoading (loadingToastId : N) : Handler unit :=
  if (loadingToastId =? 0) then ret tt else call (ToastDismiss loadingToastId).

(** [handleSubmit] from its start to [await fetch]: [render] is the render
    whose form was submitted, [toastId] the id [toast.loading] hands out.
    The result is [Some id] when the handler is now suspended on the
    request, and [None] when it has returned. *)
Definition handleSubmit (render : Cells) (toastId : N)
  : Handler (option N) :=
  call PreventDefault ;;
  if negb (nonEmpty (trim (input render))) || isProcessing render
  then ret None
  else if negb hasApiKey
  then
    call (ToastError (lit "Groq API key not configured. Please check your environment variables.")) ;;
    ret None
  else
    let userMessage := {| role := user; content := trim (input render) |} in
    setMessages (fun prev => prev ++ [userMessage]) ;;
    let currentInput := trim (input render) in
    setInput [] ;;
    setIsProcessing true ;;
    let loadingToastId := toastId in
    setMessages (fun prev =>
      prev ++ [{| role := assistant; content := Thinking |}]) ;;
    call (ToastLoading (lit "Processing your question...")) ;;
    call (Fetch GROQ_API_URL
            {| method := lit "POST";
               authorization := bearer;
               contentType := lit "application/json";
               body := requestBody (variant env) (ocrText env) currentInput |}) ;;
    ret (Some loadingToastId).

(** [handleSubmit] from the moment [await fetch] settles to its end. *)
Definition handleSubmit_settled (loadingToastId : N) (outcome : FetchOutcome)
  : Handler unit :=
  tryFinally
    (tryCatch
       (response <- match outcome with
                    | Rejected e => throw e
                    | Resolved r => ret r
                    end ;;
        setMessages (filter notThinking) ;;
        (if negb (ok response)
         then
           errorText <- lift (response_text response) ;;
           error <- lift (newError (errorMessage_notOk response errorText)) ;;
           throw error
         else ret tt) ;;
        data <- lift (response_json response) ;;
        aiResponse <- lift (aiResponse_of data) ;;
        setMessages (fun prev =>
          prev ++ [{| role := assistant; content := aiResponse |}]) ;;
        dismissLoading loadingToastId ;;
        call (ToastSuccess (lit "Response generated successfully!")))
       (fun error =>
          setMessages (filter notThinking) ;;
          let errorMessage := classify error in
          setMessages (fun prev =>
            prev ++ [{| role := assistant;
                        content := errorMessage ++ retrySuggestion |}]) ;;
          dismissLoading loadingToastId ;;
          call (ToastError (lit "Failed to generate response"))))
    (setIsProcessing false).

(** The handler does not run from [await fetch] to its end in one piece
    when the request resolves: after removing the placeholder it awaits the
    body of the response ([response.text()] or [response.json()]).
    [handleSubmit_responded] is the piece that runs when the response
    arrives, [handleSubmit_resumed] the piece that runs when its body has
    been read. *)
Definition handleSubmit_responded : Handler unit :=
  setMessages (filter notThinking).

Definition handleSubmit_resumed (loadingToastId : N) (response : Response)
  : Handler unit :=
  tryFinally
    (tryCatch
       ((if negb (ok response)
         then
           errorText <- lift (response_text response) ;;
           error <- lift (newError (errorMessage_notOk response errorText)) ;;
           throw error
         else ret tt) ;;
        data <- lift (response_json response) ;;
        aiResponse <- lift (aiResponse_of data) ;;
        setMessages (fun prev =>
          prev ++ [{| role := assistant; content := aiResponse |}]) ;;
        dismissLoading loadingToastId ;;
        call (ToastSuccess (lit "Response generated successfully!")))
       (fun error =>
          setMessages (filter notThinking) ;;
          let errorMessage := classify error in
          setMessages (fun prev =>
            prev ++ [{| role := assistant;
                        content := errorMessage ++ retrySuggestion |}]) ;;
          dismissLoading loadingToastId ;;
          call (ToastError (lit "Failed to generate response"))))
    (setIsProcessing false).

End Component.

(** ** The widget over time *)

(** The instance together with what surrounds it: the [isVisible] prop the
    parent currently passes, the [handleSubmit] calls suspended on their
    request (each remembers its [loadingToastId]), and the calls made so
    far. *)
Record World := mkWorld {
  instance : Instance;
  isVisible : bool;
  inFlight : list N;
  calls : list Effect
}.

Inductive Event :=
| ParentRenders (visible : bool)
| Change (value : jsstring)
| Submit (toastId : N)
| Settle (k : nat) (outcome : FetchOutcome)
| ClickIcon
| ClickMinimize
| ClickOverlay
| ClickClose
| MouseDown (clientY : Z)
| MouseMove (clientY : Z)
| MouseUp.

Section Widget.

Variable env : Env.

(** Running a handler to its end inside an event. *)
Definition run {A} (h : Handler A) (w : World) : World :=
  match h (instance w) (calls w) with
  | (_, i, l) => {| instance := i; isVisible := isVisible w;
                    inFlight := inFlight w; calls := l |}
  end.

Definition render (w : World) : Cells := cells (instance w).

(** The first render, and the effect that follows it. *)
Definition mount (visible : bool) : World :=
  run (useEffect_isVisible visible initialCells)
      {| instance := initialInstance; isVisible := visible;
         inFlight := []; calls := [] |}.

Definition submit (toastId : N) (w : World) : World :=
  match handleSubmit env (render w) toastId (instance w) (calls w) with
  | (r, i, l) =>
      {| instance := i; isVisible := isVisible w;
         inFlight := inFlight w ++ match r with
                                   | Ok (Some id) => [id]
                                   | _ => []
                                   end;
         calls := l |}
  end.

(** The request of the [k]-th suspended submission settles and the handler
    runs to its end.  For a response this is the arrival of the response
    and the reading of its body taken together; when other events come
    between the two, [responded] is the first half and this the second
    (removing the placeholder twice is removing it once). *)
Definition settle (k : nat) (outcome : FetchOutcome) (w : World) : World :=
  match nth_error (inFlight w) k with
  | None => w
  | Some loadingToastId =>
      match handleSubmit_settled env loadingToastId outcome
              (instance w) (calls w) with
      | (_, i, l) =>
          {| instance := i; isVisible := isVisible w;
             inFlight := firstn k (inFlight w) ++ skipn (S k) (inFlight w);
             calls := l |}
      end
  end.

Definition parentRenders (visible : bool) (w : World) : World :=
  let w' := {| instance := instance w; isVisible := visible;
               inFlight := inFlight w; calls := calls w |} in
  if Bool.eqb visible (isVisible w) then w'
  else run (useEffect_isVisible visible (render w)) w'.

Definition step (w : World) (ev : Event) : World :=
  match ev with
  | ParentRenders visible => parentRenders visible w
  | Change value => run (setInput value) w
  | Submit toastId => submit toastId w
  | Settle k outcome => settle k outcome w
  | ClickIcon => run (setIsExpanded true) w
  | ClickMinimize => run (setIsExpanded false) w
  | ClickOverlay => run (setIsExpanded false) w
  | ClickClose => run (call OnToggle) w
  | MouseDown clientY => run (handleMouseDown (render w) clientY) w
  | MouseMove clientY =>
      run (forEach (listeners (instance w))
             (fun l => handleMouseMove l clientY)) w
  | MouseUp => run (forEach (listeners (instance w)) handleMouseUp) w
  end.

Definition steps (w : World) (evs : list Event) : World :=
  fold_left step evs w.

(** The response of the [k]-th suspended submission arrives: the handler
    removes the placeholder and goes on waiting, now for the body.  The
    submission stays in flight and [isProcessing] stays set; the [Settle]
    event that follows ends it. *)
Definition responded (k : nat) (w : World) : World :=
  match nth_error (inFlight w) k with
  | None => w
  | Some _ => run handleSubmit_responded w
  end.

(** The states the widget can be in: after mounting, after an event, and
    between the arrival of a response and the reading of its body. *)
Inductive reachable : World -> Prop :=
| reach_mount visible : reachable (mount visible)
| reach_step w ev : reachable w -> reachable (step w ev)
| reach_responded w k : reachable w -> reachable (responded k w).

End Widget.

(** [clamp(x, lo, hi)] as the specification writes it. *)
Definition clamp (x lo hi : Z) : Z :=
  if (x <? lo)%Z then lo else if (hi <? x)%Z then hi else x.

(** ** Specification functions *)

Section Outcome.

Variable env : Env.

(** What the [try] block of [handleSubmit] computes once the request has
    settled: the reply text, or what it throws. *)
Definition tryOutcome (outcome : FetchOutcome) : result jsstring :=
  response <- match outcome with
              | Rejected e => Throw e
              | Resolved r => Ok r
              end ;;
  (if negb (ok response)
   then
     errorText <- response_text response ;;
     error <- Js.newError (typeErrorMessage env)
                (errorMessage_notOk env response errorText) ;;
     Throw error
   else Ok tt) ;;
  data <- response_json response ;;
  aiResponse_of env data.

(** The transcript entry a settled request ends with. *)
Definition settledEntry (outcome : FetchOutcome) : Message :=
  match tryOutcome outcome with
  | Ok aiResponse => {| role := assistant; content := aiResponse |}
  | Throw error =>
      {| role := assistant; content := classify error ++ retrySuggestion |}
  end.

(** The calls a settled request makes. *)
Definition settledCalls (loadingToastId : N) (outcome : FetchOutcome)
  : list Effect :=
  (if loadingToastId =? 0 then [] else [ToastDismiss loadingToastId])
  ++ match tryOutcome outcome with
     | Ok _ => [ToastSuccess (lit "Response generated successfully!")]
     | Throw _ => [ToastError (lit "Failed to generate response")]
     end.

(** The cells after a settled request. *)
Definition settledCells (outcome : FetchOutcome) (c : Cells) : Cells :=
  {| messages := filter notThinking (messages c) ++ [settledEntry outcome];
     input := input c;
     isProcessing := false;
     isExpanded := isExpanded c;
     chatHeight := chatHeight c;
     isResizing := isResizing c |}.

(** A submission passes the entry guard of [handleSubmit]. *)
Definition accepted (c : Cells) : bool :=
  nonEmpty (trim (input c)) && negb (isProcessing c) && hasApiKey env.

(** A request as one of the variant's [handleSubmit] builds it. *)
Definition isRequestFor (currentInput : jsstring) (init : RequestInit) : Prop :=
  model (body init) = lit "meta-llama/llama-4-scout-17b-16e-instruct"
  /\ requestMessages (body init) =
       [ {| chatRole := lit "system";
            chatContent := Prompt.prefix (variant env) ++ ocrText env
                             ++ Prompt.suffix (variant env) |};
         {| chatRole := lit "user"; chatContent := currentInput |} ]
  /\ temperature (body init) = variantTemperature (variant env)
  /\ max_tokens (body init) = variantMaxTokens (variant env).

End Outcome.

(** The instance with its cells replaced. *)
Definition withCells (c : Cells) (i : Instance) : Instance :=
  {| cells := c; startYRef := startYRef i;
     startHeightRef := startHeightRef i; listeners := listeners i |}.

(** The text of the toast raised when the credential is missing. *)
Definition configurationError : jsstring :=
  lit "Groq API key not configured. Please check your environment variables.".

Definition isFetch (e : Effect) : bool :=
  match e with Fetch _ _ => true | _ => false end.

(** Such a handler returns normally, makes no call, and leaves the
    transcript, the input, [isProcessing] and [isExpanded] alone; it keeps
    the height within the bounds of the handle when it was within them. *)
Definition panelOnly (h : Handler unit) : Prop :=
  forall i l, exists i',
    h i l = (Ok tt, i', l)
    /\ messages (cells i') = messages (cells i)
    /\ input (cells i') = input (cells i)
    /\ isProcessing (cells i') = isProcessing (cells i)
    /\ isExpanded (cells i') = isExpanded (cells i)
    /\ ((200 <= chatHeight (cells i) <= 600)%Z ->
        (200 <= chatHeight (cells i') <= 600)%Z).

(** The events of the drag handle. *)
Definition isMouse (ev : Event) : bool :=
  match ev with
  | MouseDown _ | MouseMove _ | MouseUp => true
  | _ => false
  end.

(** ** Scenarios *)

Module Scenario.

(** A resizable widget over a short source text, with a credential. *)
Definition env : Env :=
  {| typeErrorMessage := fun _ => lit "TypeError";
     variant := ResizableChatBot_a;
     ocrText := lit "Cells divide by mitosis.";
     GROQ_API_KEY := Some (lit "gsk_test") |}.

(** The same widget built without the credential. *)
Definition envNoKey : Env :=
  {| typeErrorMessage := fun _ => lit "TypeError";
     variant := ResizableChatBot_a;
     ocrText := lit "Cells divide by mitosis.";
     GROQ_API_KEY := None |}.

Definition quoted (s : jsstring) : jsstring := [34] ++ s ++ [34].

(** The body [{choices:[{message:{content: text}}]}]. *)
Definition singleChoice (text : jsstring) : json :=
  JObject [ (lit "choices",
             JArray [ JObject [ (lit "message",
                                 JObject [ (lit "content", JString text) ]) ] ]) ].

Definition singleChoiceText (text : jsstring) : jsstring :=
  lit "{" ++ quoted (lit "choices") ++ lit ":[{" ++ quoted (lit "message")
  ++ lit ":{" ++ quoted (lit "content") ++ lit ":" ++ quoted text ++ lit "}}]}".

(** A 200 response with that body. *)
Definition replies (text : jsstring) : FetchOutcome :=
  Resolved {| status := 200;
              bodyRead := BodyText (singleChoiceText text)
                            (Parsed (singleChoice text)) |}.

(** A 429 response whose body is the JSON error object
    [{error:{message:"Too many requests"}}]. *)
Definition tooManyRequests : FetchOutcome :=
  Resolved
    {| status := 429;
       bodyRead :=
         BodyText
           (lit "{" ++ quoted (lit "error") ++ lit ":{"
            ++ quoted (lit "message") ++ lit ":"
            ++ quoted (lit "Too many requests") ++ lit "}}")
           (Parsed (JObject [ (lit "error",
                               JObject [ (lit "message",
                                          JString (lit "Too many requests")) ]) ])) |}.

(** The widget shown, a question typed. *)
Definition typed : World :=
  steps env (mount true) [Change (lit " What is mitosis? ")].

(** The question submitted, the request in flight. *)
Definition asked : World := step env typed (Submit 1).

(** The widget shown, the text of the placeholder typed as a question. *)
Definition typedThinking : World :=
  steps env (mount true) [Change (lit " Thinking... ")].

(** The request the submission of [typed] issues. *)
Definition askedInit : RequestInit :=
  {| method := lit "POST";
     authorization := lit "Bearer gsk_test";
     contentType := lit "application/json";
     body := requestBody ResizableChatBot_a (lit "Cells divide by mitosis.")
               (lit "What is mitosis?") |}.

End Scenario.

(** ** What the component renders *)

(** The body of a message bubble: the animated dots, or a [div] whose inner
    HTML is set. *)
Inductive BubbleBody :=
| ThinkingDots
| InnerHTML (html : jsstring).

Record Bubble := mkBubble {
  alignEnd : bool;
  bubbleBody : BubbleBody
}.

Record Form := mkForm {
  inputValue : jsstring;
  inputDisabled : bool;
  submitDisabled : bool
}.



Section View.

(** [marked.parse], the markdown converter of the [marked] package. *)
Variable marked_parse : jsstring -> jsstring.

Definition renderMessage (message : Message) : Bubble :=
  {| alignEnd := match role message with user => true | assistant => false end;
     bubbleBody :=
       if JsString.eqb (content message) Thinking then ThinkingDots
       else InnerHTML match role message with
                      | assistant => marked_parse (content message)
                      | user => content message
                      end |}.

Definition renderForm (c : Cells) : Form :=
  {| inputValue := input c;
     inputDisabled := isProcessing c;
     submitDisabled := isProcessing c || negb (nonEmpty (trim (input c))) |}.


(** [ChatBot] has no panel state: it always shows its bubbles and form. *)
Definition ChatBot_view (c : Cells) : list Bubble * Form :=
  (map renderMessage (messages c), renderForm c).

End View.

(** [FloatingChatButton] renders its button only when there is OCR text. *)
Definition FloatingChatButton_view (hasOcrText : bool) : bool := hasOcrText.

(** ** More specification functions *)

(** The calls made between two moments. *)
Definition newCalls (before after : World) : list Effect :=
  skipn (List.length (calls before)) (calls after).

Definition isOnToggle (e : Effect) : bool :=
  match e with OnToggle => true | _ => false end.

(** The height the drag handle computes for a pointer at [clientY], from
    the refs as the instance holds them. *)
Definition dragHeight (i : Instance) (clientY : Z) : Z :=
  Z.max 200 (Z.min 600 (startHeightRef i + (startYRef i - clientY))).

(** The text the [catch] block shows for a response that is not [ok] and
    whose body is not a JSON value with properties. *)
Definition httpErrorMessage (status : N) (errorText : jsstring) : jsstring :=
  lit "HTTP " ++ ofN status ++ lit ": " ++ errorText.

(** Two moments between which the conversation has not moved. *)
Definition sameConversation (w w' : World) : Prop :=
  messages (render w') = messages (render w)
  /\ isProcessing (render w') = isProcessing (render w)
  /\ inFlight w' = inFlight w
  /\ filter isFetch (calls w') = filter isFetch (calls w).

(** The events that reach [handleSubmit]. *)
Definition isRequestEvent (ev : Event) : bool :=
  match ev with
  | Submit _ | Settle _ _ => true
  | _ => false
  end.

(** A string that does not start with white space. *)
Definition noLead (s : jsstring) : Prop :=
  match s with
  | [] => True
  | c :: _ => isWhiteSpace c = false
  end.

Module Scenario2.

(** A markdown converter for the scenarios: it wraps the text in a
    paragraph. *)
Definition marked_parse (s : jsstring) : jsstring :=
  lit "<p>" ++ s ++ lit "</p>".

(** A 500 response with the JSON body [{error:{message:"upstream 429"}}]. *)
Definition serverError : FetchOutcome :=
  Resolved
    {| status := 500;
       bodyRead :=
         BodyText
           (lit "{" ++ Scenario.quoted (lit "error") ++ lit ":{"
            ++ Scenario.quoted (lit "message") ++ lit ":"
            ++ Scenario.quoted (lit "upstream 429") ++ lit "}}")
           (Parsed (JObject [ (lit "error",
                               JObject [ (lit "message",
                                          JString (lit "upstream 429")) ]) ])) |}.

(** A response with the given status whose body is plain text. *)
Definition plainText (status : N) (text : jsstring) : FetchOutcome :=
  Resolved {| status := status;
              bodyRead := BodyText text (SyntaxError (lit "Unexpected token")) |}.

(** A response with the given status whose body is the JSON object [{}]. *)
Definition emptyObject (status : N) : FetchOutcome :=
  Resolved {| status := status;
              bodyRead := BodyText (lit "{}") (Parsed (JObject [])) |}.

(** The panel open on a fresh widget. *)
Definition opened : World := mount true.

(** A press on the handle whose release was missed, then a second press. *)
Definition pressedTwice : World :=
  steps Scenario.env (mount true) [MouseDown 300; MouseDown 350].

End Scenario2.

(** * Properties *)

Module JsStringFacts.

Lemma eqb_eq (a b : jsstring) : JsString.eqb a b = true <-> a = b.
Proof.
  unfold JsString.eqb. destruct (list_eq_dec N.eq_dec a b); split; congruence.
Qed.

Lemma eqb_neq (a b : jsstring) : JsString.eqb a b = false <-> a <> b.
Proof.
  unfold JsString.eqb. destruct (list_eq_dec N.eq_dec a b); split; congruence.
Qed.

Lemma eqb_refl (a : jsstring) : JsString.eqb a a = true.
Proof. now apply eqb_eq. Qed.

Lemma nonEmpty_true (s : jsstring) : nonEmpty s = true <-> s <> [].
Proof. destruct s; simpl; split; congruence. Qed.

Lemma nonEmpty_false (s : jsstring) : nonEmpty s = false <-> s = [].
Proof. destruct s; simpl; split; congruence. Qed.

End JsStringFacts.
Import JsStringFacts.
Example trim_ex : trim (lit "  hi there ") = lit "hi there".
Proof. reflexivity. Qed.
Example ofN_ex : ofN 429 = lit "429".
Proof. reflexivity. Qed.
Example includes_ex : includes (lit "HTTP 429: slow down") (lit "429") = true.
Proof. reflexivity. Qed.
Example decode_ex : lit "→" = [8594] /\ lit "🔹" = [55357; 56633].
Proof. split; reflexivity. Qed.

Example toString_array :
  toStringJ (JArray [JString (lit "a"); JNull; JArray [JBool true; JBool false]])
  = Some (lit "a,,true,false").
Proof. reflexivity. Qed.

Example prompt_sizes :
  map (fun v => (List.length (Prompt.prefix v), List.length (Prompt.suffix v)))
      [ChatBot; ResizableChatBot_a; ResizableChatBot_b; ResizableChatBot_c]
  = [(2093, 272); (1574, 100); (2322, 130); (1852, 45)]%nat.
Proof. vm_compute. reflexivity. Qed.


Section Properties.

Variable env : Env.

#[local] Arguments lit : simpl never.
#[local] Arguments requestBody : simpl never.
#[local] Arguments bearer : simpl never.
#[local] Opaque lit.

(** *** What a handler leaves behind *)

Lemma filter_notThinking_idem (ms : list Message) :
  filter notThinking (filter notThinking ms) = filter notThinking ms.
Proof.
  induction ms as [|m ms IH]; simpl; [reflexivity|].
  destruct (notThinking m) eqn:E; simpl; rewrite ?E, IH; reflexivity.
Qed.

Lemma notThinking_true (m : Message) :
  notThinking m = true <-> content m <> Thinking.
Proof.
  unfold notThinking. rewrite negb_true_iff. apply eqb_neq.
Qed.

Lemma filter_notThinking_In (m : Message) (ms : list Message) :
  In m (filter notThinking ms) <-> In m ms /\ content m <> Thinking.
Proof. rewrite filter_In, notThinking_true. reflexivity. Qed.

Lemma handleSubmit_settled_spec id outcome i l :
  handleSubmit_settled env id outcome i l
  = (Ok tt, withCells (settledCells env outcome (cells i)) i,
     l ++ settledCalls env id outcome).
Proof.
  unfold handleSubmit_settled, settledCells, settledCalls, settledEntry,
    tryOutcome, withCells, tryFinally, tryCatch, dismissLoading, lift, throw.
  destruct outcome as [e|response]; simpl.
  - destruct (id =? 0); simpl; rewrite ?app_nil_r, <- ?app_assoc; reflexivity.
  - destruct (ok response); simpl.
    + destruct (response_json response) as [data|e]; simpl.
      * destruct (aiResponse_of env data) as [s|e]; simpl;
          rewrite ?filter_notThinking_idem;
          destruct (id =? 0); simpl; rewrite ?app_nil_r, <- ?app_assoc;
          reflexivity.
      * rewrite ?filter_notThinking_idem;
          destruct (id =? 0); simpl; rewrite ?app_nil_r, <- ?app_assoc;
          reflexivity.
    + destruct (response_text response) as [t|e]; simpl.
      * destruct (Js.newError _ _) as [e'|e']; simpl;
          rewrite ?filter_notThinking_idem;
          destruct (id =? 0); simpl; rewrite ?app_nil_r, <- ?app_assoc;
          reflexivity.
      * rewrite ?filter_notThinking_idem;
          destruct (id =? 0); simpl; rewrite ?app_nil_r, <- ?app_assoc;
          reflexivity.
Qed.

Lemma handleSubmit_accepted render id i l :
  accepted env render = true ->
  handleSubmit env render id i l
  = (Ok (Some id),
     withCells
       {| messages := messages (cells i)
                      ++ [ {| role := user; content := trim (input render) |};
                           {| role := assistant; content := Thinking |} ];
          input := [];
          isProcessing := true;
          isExpanded := isExpanded (cells i);
          chatHeight := chatHeight (cells i);
          isResizing := isResizing (cells i) |} i,
     l ++ [ PreventDefault;
            ToastLoading (lit "Processing your question...");
            Fetch GROQ_API_URL
              {| method := lit "POST";
                 authorization := bearer env;
                 contentType := lit "application/json";
                 body := requestBody (variant env) (ocrText env)
                           (trim (input render)) |} ]).
Proof.
  unfold accepted. intros H.
  apply andb_true_iff in H as [H Hkey].
  apply andb_true_iff in H as [Hin Hproc].
  apply negb_true_iff in Hproc.
  unfold handleSubmit, withCells. simpl.
  rewrite Hin, Hproc, Hkey. simpl.
  rewrite <- !app_assoc. reflexivity.
Qed.

Lemma handleSubmit_rejected render id i l :
  accepted env render = false ->
  handleSubmit env render id i l
  = (Ok None, i,
     l ++ PreventDefault ::
       (if nonEmpty (trim (input render)) && negb (isProcessing render)
        then [ToastError configurationError] else [])).
Proof.
  unfold accepted, handleSubmit. intros H. simpl.
  destruct (nonEmpty (trim (input render))); simpl;
    [destruct (isProcessing render); simpl|]; try reflexivity.
  simpl in H. rewrite H. simpl. rewrite <- app_assoc. reflexivity.
Qed.

Lemma accepted_iff (c : Cells) :
  accepted env c = true
  <-> trim (input c) <> [] /\ isProcessing c = false /\ hasApiKey env = true.
Proof.
  unfold accepted.
  rewrite !andb_true_iff, negb_true_iff, nonEmpty_true. tauto.
Qed.

Lemma not_accepted_iff (c : Cells) :
  accepted env c = false
  <-> trim (input c) = [] \/ isProcessing c = true \/ hasApiKey env = false.
Proof.
  unfold accepted.
  rewrite !andb_false_iff, negb_false_iff, nonEmpty_false. tauto.
Qed.

(** *** Submission *)

(** C1.  When the trimmed input is not empty, no request is in flight and
    the credential is present, the submit event itself (so before the
    request can settle) appends the user message holding the trimmed input
    and then the [Thinking...] placeholder, and nothing else, to the
    transcript; it empties the input field, sets [isProcessing], and leaves
    the handler suspended on the one request it has issued. *)
Theorem C1_submit_appends_question_and_placeholder (w : World) (toastId : N) :
  trim (input (render w)) <> [] ->
  isProcessing (render w) = false ->
  hasApiKey env = true ->
  let w' := step env w (Submit toastId) in
  messages (render w')
  = messages (render w)
    ++ [ {| role := user; content := trim (input (render w)) |};
         {| role := assistant; content := Thinking |} ]
  /\ input (render w') = []
  /\ isProcessing (render w') = true
  /\ inFlight w' = inFlight w ++ [toastId]
  /\ filter isFetch (calls w')
     = filter isFetch (calls w)
       ++ [ Fetch GROQ_API_URL
              {| method := lit "POST";
                 authorization := bearer env;
                 contentType := lit "application/json";
                 body := requestBody (variant env) (ocrText env)
                           (trim (input (render w))) |} ].
Proof.
  intros Hin Hproc Hkey.
  assert (Hacc : accepted env (render w) = true)
    by (apply accepted_iff; auto).
  simpl. unfold submit.
  rewrite (handleSubmit_accepted _ _ _ _ Hacc).
  unfold render; simpl. repeat split.
  rewrite filter_app. reflexivity.
Qed.

(** C2.  A submit event with an input that is empty after trimming, or
    while a request is in flight, or without the credential, changes no
    state of the widget (transcript, input, [isProcessing], panel, refs,
    listeners), suspends on no request and calls [fetch] not at all.  The
    configuration-error toast is raised exactly when it is the credential
    check that stops the submission, that is when the input is not blank
    and nothing is in flight. *)
Theorem C2_rejected_submission_is_inert (w : World) (toastId : N) :
  trim (input (render w)) = []
  \/ isProcessing (render w) = true
  \/ hasApiKey env = false ->
  let w' := step env w (Submit toastId) in
  instance w' = instance w
  /\ isVisible w' = isVisible w
  /\ inFlight w' = inFlight w
  /\ filter isFetch (calls w') = filter isFetch (calls w)
  /\ calls w'
     = calls w ++ PreventDefault ::
         (if nonEmpty (trim (input (render w)))
             && negb (isProcessing (render w))
          then [ToastError configurationError] else []).
Proof.
  intros H. apply not_accepted_iff in H.
  simpl. unfold submit.
  rewrite (handleSubmit_rejected _ _ _ _ H). simpl.
  repeat split.
  - apply app_nil_r.
  - rewrite filter_app. simpl.
    destruct (nonEmpty _ && negb _); simpl; apply app_nil_r.
Qed.

(** *** Settlement *)

Lemma settle_spec (w : World) k loadingToastId outcome :
  nth_error (inFlight w) k = Some loadingToastId ->
  step env w (Settle k outcome)
  = {| instance := withCells (settledCells env outcome (render w)) (instance w);
       isVisible := isVisible w;
       inFlight := firstn k (inFlight w) ++ skipn (S k) (inFlight w);
       calls := calls w ++ settledCalls env loadingToastId outcome |}.
Proof.
  intros H. simpl. unfold settle. rewrite H.
  rewrite handleSubmit_settled_spec. reflexivity.
Qed.

Lemma settle_messages (w : World) k loadingToastId outcome :
  nth_error (inFlight w) k = Some loadingToastId ->
  messages (render (step env w (Settle k outcome)))
  = filter notThinking (messages (render w)) ++ [settledEntry env outcome]
  /\ isProcessing (render (step env w (Settle k outcome))) = false.
Proof.
  intros H. rewrite (settle_spec _ _ _ _ H). split; reflexivity.
Qed.

Lemma retrySuggestion_not_Thinking (s : jsstring) :
  s ++ retrySuggestion <> Thinking.
Proof.
  intros H. apply (f_equal (@List.length N)) in H.
  rewrite length_app in H.
  assert (E1 : List.length retrySuggestion = 44%nat) by (vm_compute; reflexivity).
  assert (E2 : List.length Thinking = 11%nat) by (vm_compute; reflexivity).
  rewrite E1, E2 in H. lia.
Qed.

Lemma settledEntry_assistant outcome : role (settledEntry env outcome) = assistant.
Proof. unfold settledEntry. destruct (tryOutcome env outcome); reflexivity. Qed.

Lemma settledEntry_Thinking outcome :
  content (settledEntry env outcome) = Thinking ->
  tryOutcome env outcome = Ok Thinking.
Proof.
  unfold settledEntry. destruct (tryOutcome env outcome) as [s|e]; simpl.
  - congruence.
  - intros H. now apply retrySuggestion_not_Thinking in H.
Qed.

Lemma trim_nil : trim [] = [].
Proof. reflexivity. Qed.

(** The reply text of a body of the expected shape. *)
Lemma aiResponse_of_wellFormed props cprops rest mprops text :
  lookup (lit "choices") props = Some (JArray (JObject cprops :: rest)) ->
  lookup (lit "message") cprops = Some (JObject mprops) ->
  lookup (lit "content") mprops = Some (JString text) ->
  aiResponse_of env (JObject props)
  = if JsString.eqb (trim text) []
    then Throw (ErrorObj (lit "Empty response from AI"))
    else Ok text.
Proof.
  intros Hc Hm Ht. unfold aiResponse_of. simpl.
  rewrite Hc. simpl. rewrite Hm. simpl. rewrite Ht. simpl.
  destruct text as [|c text]; simpl; reflexivity.
Qed.

(** C3 (as amended).  Once the request of a suspended submission has
    settled, by an [ok] response, an error status or a thrown error,
    [isProcessing] is false, and the transcript is the previous one without
    its entries of content [Thinking...] followed by one new assistant
    entry.  No entry before the new one has the placeholder's content, and
    the new one has it only when the request succeeded with a reply text
    that is itself [Thinking...]. *)
Theorem C3_settlement_removes_placeholder (w : World) k loadingToastId outcome :
  nth_error (inFlight w) k = Some loadingToastId ->
  let w' := step env w (Settle k outcome) in
  isProcessing (render w') = false
  /\ exists entry,
       messages (render w')
       = filter notThinking (messages (render w)) ++ [entry]
       /\ role entry = assistant
       /\ (forall m, In m (filter notThinking (messages (render w))) ->
                     content m <> Thinking)
       /\ (content entry = Thinking -> tryOutcome env outcome = Ok Thinking).
Proof.
  intros H w'. destruct (settle_messages w k loadingToastId outcome H) as [Hm Hp].
  split; [exact Hp|].
  exists (settledEntry env outcome). repeat split.
  - exact Hm.
  - apply settledEntry_assistant.
  - intros m Hin. now apply filter_notThinking_In in Hin.
  - apply settledEntry_Thinking.
Qed.

(** C4 (as amended).  When the request of a suspended submission settles
    with an [ok] status and a body whose [choices[0].message.content] is a
    string that is not empty after trimming, the transcript gains exactly
    one entry, the assistant message with that string as its content, which
    is therefore its last entry; the placeholder is gone. *)
Theorem C4_reply_is_appended (w : World) k loadingToastId response
    props cprops rest mprops text :
  nth_error (inFlight w) k = Some loadingToastId ->
  ok response = true ->
  response_json response = Ok (JObject props) ->
  lookup (lit "choices") props = Some (JArray (JObject cprops :: rest)) ->
  lookup (lit "message") cprops = Some (JObject mprops) ->
  lookup (lit "content") mprops = Some (JString text) ->
  trim text <> [] ->
  let w' := step env w (Settle k (Resolved response)) in
  messages (render w')
  = filter notThinking (messages (render w))
    ++ [ {| role := assistant; content := text |} ]
  /\ last (messages (render w')) greeting
     = {| role := assistant; content := text |}
  /\ isProcessing (render w') = false.
Proof.
  intros H Hok Hjson Hc Hm Ht Htrim w'.
  destruct (settle_messages w k loadingToastId (Resolved response) H) as [Hmsg Hp].
  assert (E : settledEntry env (Resolved response)
              = {| role := assistant; content := text |}).
  { unfold settledEntry, tryOutcome. simpl. rewrite Hok. simpl.
    rewrite Hjson. simpl.
    rewrite (aiResponse_of_wellFormed _ _ _ _ _ Hc Hm Ht).
    apply eqb_neq in Htrim. rewrite Htrim. reflexivity. }
  rewrite E in Hmsg. subst w'. repeat split.
  - exact Hmsg.
  - rewrite Hmsg. apply last_last.
  - exact Hp.
Qed.

(** C10.  Removal at settlement goes by content alone.  When a request
    settles, every entry of the transcript whose content is [Thinking...]
    is dropped, whatever its role or position, and every other entry is
    kept in order.  So a question whose trimmed text is [Thinking...] is in
    the transcript after the submit event and no user entry with that
    content is there once the request has settled. *)
Theorem C10_removal_is_by_content (w : World) (toastId : N) outcome :
  let sentinel := {| role := user; content := Thinking |} in
  (forall k loadingToastId,
      nth_error (inFlight w) k = Some loadingToastId ->
      exists entry,
        messages (render (step env w (Settle k outcome)))
        = filter (fun m => negb (JsString.eqb (content m) Thinking))
            (messages (render w)) ++ [entry]
        /\ role entry = assistant)
  /\ (trim (input (render w)) = Thinking ->
      isProcessing (render w) = false ->
      hasApiKey env = true ->
      let w1 := step env w (Submit toastId) in
      let w2 := step env w1 (Settle (List.length (inFlight w)) outcome) in
      In sentinel (messages (render w1))
      /\ ~ In sentinel (messages (render w2))
      /\ messages (render w2)
         = filter notThinking (messages (render w))
           ++ [settledEntry env outcome]).
Proof.
  intros sentinel. split.
  - intros k id H. exists (settledEntry env outcome). split.
    + apply (settle_messages w k id outcome H).
    + apply settledEntry_assistant.
  - intros Hin Hproc Hkey w1 w2.
    assert (Hacc : accepted env (render w) = true).
    { apply accepted_iff. rewrite Hin. repeat split; auto. discriminate. }
    assert (H1 : messages (render w1)
                 = messages (render w) ++ [sentinel; {| role := assistant; content := Thinking |}]).
    { subst w1. simpl. unfold submit.
      rewrite (handleSubmit_accepted _ _ _ _ Hacc). rewrite Hin.
      reflexivity. }
    assert (H2 : nth_error (inFlight w1) (List.length (inFlight w)) = Some toastId).
    { subst w1. simpl. unfold submit.
      rewrite (handleSubmit_accepted _ _ _ _ Hacc). simpl.
      rewrite nth_error_app2, Nat.sub_diag by lia. reflexivity. }
    destruct (settle_messages w1 _ _ outcome H2) as [Hm _].
    fold w2 in Hm.
    assert (H3 : messages (render w2)
                 = filter notThinking (messages (render w)) ++ [settledEntry env outcome]).
    { rewrite Hm, H1, filter_app. simpl.
      unfold notThinking at 2 3. simpl. rewrite eqb_refl. simpl.
      now rewrite app_nil_r. }
    repeat split.
    + rewrite H1. apply in_or_app. right. now left.
    + rewrite H3. intros Hi. apply in_app_or in Hi as [Hi|Hi].
      * apply filter_notThinking_In in Hi as [_ Hc]. now apply Hc.
      * destruct Hi as [Hi|[]].
        pose proof (settledEntry_assistant outcome) as Hr.
        rewrite Hi in Hr. discriminate.
    + exact H3.
Qed.

(** *** Handlers that touch the panel only *)

Lemma panelOnly_ret : panelOnly (ret tt).
Proof. intros i l. exists i. simpl. tauto. Qed.

Lemma panelOnly_bind (h1 h2 : Handler unit) :
  panelOnly h1 -> panelOnly h2 -> panelOnly (h1 ;; h2).
Proof.
  intros H1 H2 i l.
  destruct (H1 i l) as (i1 & E1 & M1 & I1 & P1 & X1 & C1).
  destruct (H2 i1 l) as (i2 & E2 & M2 & I2 & P2 & X2 & C2).
  exists i2. simpl. rewrite E1, E2.
  repeat split; try congruence. all: apply C2, C1; assumption.
Qed.

Lemma panelOnly_forEach {A} (xs : list A) (h : A -> Handler unit) :
  (forall x, panelOnly (h x)) -> panelOnly (forEach xs h).
Proof.
  intros H. induction xs as [|x xs IH]; simpl.
  - apply panelOnly_ret.
  - apply panelOnly_bind; auto.
Qed.

Ltac panel_step :=
  intros i l; eexists; simpl; repeat split; simpl; auto; try lia.

Lemma panelOnly_handleMouseMove lst clientY :
  panelOnly (handleMouseMove lst clientY).
Proof.
  unfold handleMouseMove. destruct (isResizing lst); simpl.
  - panel_step.
  - apply panelOnly_ret.
Qed.

Lemma panelOnly_handleMouseUp lst : panelOnly (handleMouseUp lst).
Proof. unfold handleMouseUp. panel_step. Qed.

Lemma panelOnly_handleMouseDown lst clientY :
  panelOnly (handleMouseDown lst clientY).
Proof. unfold handleMouseDown. panel_step. Qed.

Lemma run_panelOnly (h : Handler unit) (w : World) :
  panelOnly h ->
  let w' := run h w in
  messages (render w') = messages (render w)
  /\ input (render w') = input (render w)
  /\ isProcessing (render w') = isProcessing (render w)
  /\ isExpanded (render w') = isExpanded (render w)
  /\ ((200 <= chatHeight (render w) <= 600)%Z ->
      (200 <= chatHeight (render w') <= 600)%Z)
  /\ isVisible w' = isVisible w
  /\ inFlight w' = inFlight w
  /\ calls w' = calls w.
Proof.
  intros H. destruct (H (instance w) (calls w)) as (i' & E & M & I & P & X & C).
  unfold run, render. rewrite E. simpl. tauto.
Qed.

Lemma step_mouse (w : World) (ev : Event) :
  isMouse ev = true ->
  let w' := step env w ev in
  messages (render w') = messages (render w)
  /\ input (render w') = input (render w)
  /\ isProcessing (render w') = isProcessing (render w)
  /\ isExpanded (render w') = isExpanded (render w)
  /\ ((200 <= chatHeight (render w) <= 600)%Z ->
      (200 <= chatHeight (render w') <= 600)%Z)
  /\ isVisible w' = isVisible w
  /\ inFlight w' = inFlight w
  /\ calls w' = calls w.
Proof.
  destruct ev; try discriminate; intros _; unfold step; apply run_panelOnly.
  - apply panelOnly_handleMouseDown.
  - apply panelOnly_forEach. intros x. apply panelOnly_handleMouseMove.
  - apply panelOnly_forEach. intros x. apply panelOnly_handleMouseUp.
Qed.

(** *** What one event does to the transcript, the panel and the calls *)

Lemma submit_cases (w : World) (toastId : N) :
  let w' := step env w (Submit toastId) in
  (accepted env (render w) = true
   /\ messages (render w')
      = messages (render w)
        ++ [ {| role := user; content := trim (input (render w)) |};
             {| role := assistant; content := Thinking |} ]
   /\ calls w'
      = calls w
        ++ [ PreventDefault;
             ToastLoading (lit "Processing your question...");
             Fetch GROQ_API_URL
               {| method := lit "POST";
                  authorization := bearer env;
                  contentType := lit "application/json";
                  body := requestBody (variant env) (ocrText env)
                            (trim (input (render w))) |} ]
   /\ isExpanded (render w') = isExpanded (render w)
   /\ chatHeight (render w') = chatHeight (render w))
  \/ (accepted env (render w) = false
      /\ instance w' = instance w
      /\ filter isFetch (calls w') = filter isFetch (calls w)
      /\ exists l, calls w' = calls w ++ l /\ filter isFetch l = []).
Proof.
  simpl. unfold submit.
  destruct (accepted env (render w)) eqn:Hacc.
  - left. rewrite (handleSubmit_accepted _ _ _ _ Hacc).
    unfold render; simpl. repeat split.
  - right. rewrite (handleSubmit_rejected _ _ _ _ Hacc). simpl.
    repeat split.
    + rewrite filter_app. simpl.
      destruct (nonEmpty _ && negb _); simpl; apply app_nil_r.
    + eexists. split; [reflexivity|].
      destruct (nonEmpty _ && negb _); reflexivity.
Qed.

Lemma settle_cases (w : World) k outcome :
  let w' := step env w (Settle k outcome) in
  w' = w
  \/ exists loadingToastId,
       nth_error (inFlight w) k = Some loadingToastId
       /\ w' = {| instance := withCells (settledCells env outcome (render w))
                                (instance w);
                  isVisible := isVisible w;
                  inFlight := firstn k (inFlight w) ++ skipn (S k) (inFlight w);
                  calls := calls w ++ settledCalls env loadingToastId outcome |}.
Proof.
  destruct (nth_error (inFlight w) k) as [id|] eqn:H.
  - right. exists id. split; [reflexivity|]. now apply settle_spec.
  - left. simpl. unfold settle. now rewrite H.
Qed.

Lemma parentRenders_cases (w : World) (visible : bool) :
  let w' := step env w (ParentRenders visible) in
  messages (render w') = messages (render w)
  /\ chatHeight (render w') = chatHeight (render w)
  /\ calls w' = calls w
  /\ isVisible w' = visible
  /\ isExpanded (render w')
     = if negb (Bool.eqb visible (isVisible w)) && visible
       then true else isExpanded (render w).
Proof.
  simpl. unfold parentRenders, useEffect_isVisible, run, render.
  destruct visible, (isVisible w); simpl;
    destruct (isExpanded (cells (instance w))) eqn:E; simpl;
    rewrite ?E; repeat split.
Qed.

Lemma step_messages (w : World) (ev : Event) :
  let w' := step env w ev in
  (exists added, messages (render w') = messages (render w) ++ added)
  \/ (exists k outcome added,
        ev = Settle k outcome
        /\ messages (render w')
           = filter notThinking (messages (render w)) ++ added).
Proof.
  destruct ev as [visible|value|toastId|k outcome| | | | |y|y| ].
  - left. exists []. rewrite app_nil_r. apply parentRenders_cases.
  - left. exists []. rewrite app_nil_r. reflexivity.
  - left. destruct (submit_cases w toastId) as [(_ & H & _)|(_ & H & _)].
    + eexists. exact H.
    + exists []. rewrite app_nil_r. unfold render. now rewrite H.
  - destruct (settle_cases w k outcome) as [H|(id & _ & H)].
    + left. exists []. rewrite app_nil_r. now rewrite H.
    + right. exists k, outcome, [settledEntry env outcome].
      split; [reflexivity|]. now rewrite H.
  - left. exists []. rewrite app_nil_r. reflexivity.
  - left. exists []. rewrite app_nil_r. reflexivity.
  - left. exists []. rewrite app_nil_r. reflexivity.
  - left. exists []. rewrite app_nil_r. reflexivity.
  - left. exists []. rewrite app_nil_r. now apply (step_mouse w (MouseDown y)).
  - left. exists []. rewrite app_nil_r. now apply (step_mouse w (MouseMove y)).
  - left. exists []. rewrite app_nil_r. now apply (step_mouse w MouseUp).
Qed.

Lemma responded_spec (k : nat) (w : World) :
  let w' := responded k w in
  (messages (render w') = messages (render w)
   \/ messages (render w') = filter notThinking (messages (render w)))
  /\ input (render w') = input (render w)
  /\ isProcessing (render w') = isProcessing (render w)
  /\ isExpanded (render w') = isExpanded (render w)
  /\ chatHeight (render w') = chatHeight (render w)
  /\ isVisible w' = isVisible w
  /\ inFlight w' = inFlight w
  /\ calls w' = calls w.
Proof.
  unfold responded. destruct (nth_error (inFlight w) k).
  - unfold run, render. simpl. repeat split. now right.
  - repeat split. now left.
Qed.

(** The one-step settlement of a response is the piece that runs when the
    response arrives followed by the piece that runs when its body has been
    read. *)
Lemma handleSubmit_settled_in_two_pieces id response i l :
  handleSubmit_settled env id (Resolved response) i l
  = (handleSubmit_responded ;; handleSubmit_resumed env id response) i l.
Proof.
  unfold handleSubmit_settled, handleSubmit_resumed, handleSubmit_responded,
    tryFinally, tryCatch. reflexivity.
Qed.

(** On a transcript without placeholder the settlement is the second piece
    alone. *)
Lemma handleSubmit_settled_after_responded id response i l :
  filter notThinking (messages (cells i)) = messages (cells i) ->
  handleSubmit_settled env id (Resolved response) i l
  = handleSubmit_resumed env id response i l.
Proof.
  intros H. rewrite handleSubmit_settled_in_two_pieces.
  unfold handleSubmit_responded. simpl. rewrite H.
  now destruct i as [[] ? ? ?].
Qed.

(** Settling after the response has arrived ends in the state the one-step
    settlement ends in. *)
Lemma settle_after_responded (w : World) k outcome :
  step env (responded k w) (Settle k outcome) = step env w (Settle k outcome).
Proof.
  unfold responded.
  destruct (nth_error (inFlight w) k) as [id|] eqn:H; [|reflexivity].
  rewrite (settle_spec w k id outcome H).
  rewrite (settle_spec (run handleSubmit_responded w) k id outcome)
    by exact H.
  unfold run, handleSubmit_responded, withCells, settledCells, render. simpl.
  rewrite filter_notThinking_idem. reflexivity.
Qed.



(** *** The request *)


(** *** The transcript *)

Lemma notThinking_greeting : notThinking greeting = true.
Proof. vm_compute. reflexivity. Qed.

Lemma hd_greeting_app (ms added : list Message) :
  hd_error ms = Some greeting -> hd_error (ms ++ added) = Some greeting.
Proof. destruct ms; simpl; congruence. Qed.

Lemma hd_greeting_filter (ms : list Message) :
  hd_error ms = Some greeting ->
  hd_error (filter notThinking ms) = Some greeting.
Proof.
  destruct ms as [|m ms]; simpl; [congruence|].
  intros [= ->]. now rewrite notThinking_greeting.
Qed.

(** C8.  In every state the widget can reach, the first entry of the
    transcript is the seeded greeting.  An event either only appends to the
    transcript or, when it is the settlement of a request, drops exactly
    the entries whose content is [Thinking...] and then appends. *)
Theorem C8_greeting_stays_first (w : World) :
  reachable env w ->
  nth_error (messages (render w)) 0 = Some greeting
  /\ forall ev,
       let w' := step env w ev in
       (exists added, messages (render w') = messages (render w) ++ added)
       \/ (exists k outcome added,
             ev = Settle k outcome
             /\ messages (render w')
                = filter (fun m => negb (JsString.eqb (content m) Thinking))
                    (messages (render w)) ++ added).
Proof.
  intros Hr. split; [|intros ev; apply step_messages].
  rewrite nth_error_0.
  induction Hr as [visible|w ev Hr IH|w k Hr IH].
  - unfold mount, useEffect_isVisible, run. destruct visible; reflexivity.
  - destruct (step_messages w ev) as [(added & H)|(k & outcome & added & _ & H)];
      rewrite H.
    + now apply hd_greeting_app.
    + now apply hd_greeting_app, hd_greeting_filter.
  - destruct (responded_spec k w) as ([H|H] & _); rewrite H.
    + exact IH.
    + now apply hd_greeting_filter.
Qed.

(** *** The panel *)

Lemma step_keeps_collapsed (w : World) (ev : Event) :
  isExpanded (render w) = false ->
  ev <> ClickIcon ->
  (ev = ParentRenders true -> isVisible w = true) ->
  isExpanded (render (step env w ev)) = false.
Proof.
  intros Hc Hicon Hshow.
  destruct ev as [visible|value|toastId|k outcome| | | | |y|y| ].
  - destruct (parentRenders_cases w visible) as (_ & _ & _ & _ & H).
    rewrite H. destruct visible; simpl.
    + rewrite (Hshow eq_refl). exact Hc.
    + rewrite andb_false_r. exact Hc.
  - exact Hc.
  - destruct (submit_cases w toastId) as [(_ & _ & _ & H & _)|(_ & H & _)].
    + now rewrite H.
    + unfold render. now rewrite H.
  - destruct (settle_cases w k outcome) as [H|(id & _ & H)]; rewrite H; exact Hc.
  - congruence.
  - reflexivity.
  - reflexivity.
  - exact Hc.
  - destruct (step_mouse w (MouseDown y) eq_refl) as (_ & _ & _ & H & _).
    now rewrite H.
  - destruct (step_mouse w (MouseMove y) eq_refl) as (_ & _ & _ & H & _).
    now rewrite H.
  - destruct (step_mouse w MouseUp eq_refl) as (_ & _ & _ & H & _).
    now rewrite H.
Qed.

(** C9.  When the parent turns [isVisible] from false to true the panel is
    expanded by the effect of that render.  The effect runs for that render
    only: afterwards a collapsed panel stays collapsed under every event
    except a click on the icon and the next turn from hidden to shown.
    Minimize collapses the panel, does not call the parent's callback and
    leaves [isVisible] as it was. *)
Theorem C9_auto_expand_once_per_show (w : World) :
  (isVisible w = false ->
   let w' := step env w (ParentRenders true) in
   isExpanded (render w') = true /\ isVisible w' = true)
  /\ (forall ev,
        isExpanded (render w) = false ->
        ev <> ClickIcon ->
        (ev = ParentRenders true -> isVisible w = true) ->
        isExpanded (render (step env w ev)) = false)
  /\ (let w' := step env w ClickMinimize in
      isExpanded (render w') = false
      /\ isVisible w' = isVisible w
      /\ calls w' = calls w
      /\ inFlight w' = inFlight w).
Proof.
  split; [|split].
  - intros Hv. destruct (parentRenders_cases w true) as (_ & _ & _ & H1 & H2).
    split; [|exact H1]. rewrite H2, Hv. reflexivity.
  - intros ev. apply step_keeps_collapsed.
  - repeat split.
Qed.

(** The height never leaves the range of the handle. *)
Lemma chatHeight_bounds (w : World) :
  reachable env w -> (200 <= chatHeight (render w) <= 600)%Z.
Proof.
  intros Hr. induction Hr as [visible|w ev Hr IH|w k Hr IH];
    [| |destruct (responded_spec k w) as (_ & _ & _ & _ & H & _);
        now rewrite H].
  - unfold mount, useEffect_isVisible, run, render.
    destruct visible; simpl; lia.
  - destruct ev as [visible|value|toastId|k outcome| | | | |y|y| ].
    + destruct (parentRenders_cases w visible) as (_ & H & _). now rewrite H.
    + exact IH.
    + destruct (submit_cases w toastId) as [(_ & _ & _ & _ & H)|(_ & H & _)].
      * now rewrite H.
      * unfold render. now rewrite H.
    + destruct (settle_cases w k outcome) as [H|(id & _ & H)]; rewrite H; exact IH.
    + exact IH.
    + exact IH.
    + exact IH.
    + exact IH.
    + now apply (step_mouse w (MouseDown y) eq_refl).
    + now apply (step_mouse w (MouseMove y) eq_refl).
    + now apply (step_mouse w MouseUp eq_refl).
Qed.

Lemma clamp_max_min (x : Z) : Z.max 200 (Z.min 600 x) = clamp x 200 600.
Proof.
  unfold clamp.
  destruct (Z.ltb_spec x 200), (Z.ltb_spec 600 x); lia.
Qed.

(** A move listener whose closure saw [isResizing] set computes the height
    the specification gives, from the refs as they are now. *)
Lemma handleMouseMove_resizing (lst : Cells) (clientY : Z) i l :
  isResizing lst = true ->
  exists i',
    handleMouseMove lst clientY i l = (Ok tt, i', l)
    /\ chatHeight (cells i')
       = clamp (startHeightRef i + (startYRef i - clientY)) 200 600.
Proof.
  intros H. unfold handleMouseMove. rewrite H. simpl.
  eexists. split; [reflexivity|]. simpl. apply clamp_max_min.
Qed.

(** A move listener whose closure saw [isResizing] clear does nothing. *)
Lemma handleMouseMove_stale (lst : Cells) (clientY : Z) i l :
  isResizing lst = false ->
  handleMouseMove lst clientY i l = (Ok tt, i, l).
Proof. intros H. unfold handleMouseMove. now rewrite H. Qed.

Lemma move_with_stale_listener (w : World) (lst : Cells) (y : Z) :
  listeners (instance w) = [lst] ->
  isResizing lst = false ->
  step env w (MouseMove y) = w.
Proof.
  intros Hl Hres. simpl. unfold run. rewrite Hl. simpl.
  rewrite (handleMouseMove_stale _ _ _ _ Hres). now destruct w.
Qed.

(** A drag that starts with no drag under way registers the listeners of a
    render in which [isResizing] was still false, so no move of that drag
    changes the height. *)
Lemma drag_from_rest_keeps_height (w : World) (startY : Z) (ys : list Z) :
  isResizing (render w) = false ->
  listeners (instance w) = [] ->
  chatHeight (render (steps env (step env w (MouseDown startY))
                        (map MouseMove ys)))
  = chatHeight (render w).
Proof.
  intros Hres Hls.
  assert (Hd : listeners (instance (step env w (MouseDown startY))) = [render w]
               /\ chatHeight (render (step env w (MouseDown startY)))
                  = chatHeight (render w)).
  { simpl. unfold run, handleMouseDown. simpl. rewrite Hls. simpl. auto. }
  destruct Hd as [Hl Hh]. rewrite <- Hh.
  remember (step env w (MouseDown startY)) as w1 eqn:E. clear E Hh.
  f_equal. f_equal.
  induction ys as [|y ys IH]; [reflexivity|].
  change (steps env (step env w1 (MouseMove y)) (map MouseMove ys) = w1).
  rewrite (move_with_stale_listener _ _ y Hl Hres). exact IH.
Qed.

(** *** The classification of a failed request *)

Lemma startsWith_app (s t p : jsstring) :
  startsWith s p = true -> startsWith (s ++ t) p = true.
Proof.
  revert s. induction p as [|a p IH]; intros s H;
    [destruct s; simpl; [destruct t|]; reflexivity|].
  destruct s as [|b s]; simpl in *; [discriminate|].
  apply andb_true_iff in H as [H1 H2].
  rewrite H1. simpl. now apply IH.
Qed.

Lemma includes_app (s t p : jsstring) :
  includes s p = true -> includes (s ++ t) p = true.
Proof.
  induction s as [|c s IH]; intros H.
  - destruct p; [|discriminate]. destruct t; reflexivity.
  - change (startsWith (c :: s) p || includes s p = true) in H.
    change (startsWith ((c :: s) ++ t) p || includes (s ++ t) p = true).
    apply orb_true_iff in H as [H|H].
    + rewrite (startsWith_app _ _ _ H). reflexivity.
    + rewrite (IH H). apply orb_true_r.
Qed.

(** The rate limit is recognised on the path that renders the status into
    the thrown message, that is when the body of the 429 response is not
    JSON (and its text does not trigger an earlier branch). *)
Lemma rate_limit_recognised_without_json (errorText syntaxError : jsstring) :
  let message := lit "HTTP " ++ ofN 429 ++ lit ": " ++ errorText in
  includes message (lit "Failed to fetch") = false ->
  includes message (lit "NetworkError") = false ->
  includes message (lit "401") = false ->
  settledEntry env
    (Resolved {| status := 429;
                 bodyRead := BodyText errorText (SyntaxError syntaxError) |})
  = {| role := assistant;
       content := lit "Rate limit exceeded. Please wait a moment and try again."
                  ++ retrySuggestion |}.
Proof.
  intros message H1 H2 H3.
  assert (H4 : includes message (lit "429") = true).
  { subst message.
    change (lit "HTTP " ++ ofN 429 ++ lit ": " ++ errorText)
      with ((lit "HTTP " ++ ofN 429 ++ lit ": ") ++ errorText).
    apply includes_app. vm_compute. reflexivity. }
  unfold settledEntry, tryOutcome, errorMessage_notOk, classify. simpl.
  fold message. rewrite H1, H2, H3, H4. reflexivity.
Qed.

(** With the formula of the handle in force, an upward drag by [d] from a
    height [h] in range gives [min(600, h + d)] and a downward one
    [max(200, h - d)]. *)
Lemma clamp_drag (h d : Z) :
  (200 <= h <= 600)%Z -> (0 <= d)%Z ->
  clamp (h + d) 200 600 = Z.min 600 (h + d)
  /\ clamp (h - d) 200 600 = Z.max 200 (h - d).
Proof.
  intros Hh Hd. unfold clamp.
  destruct (Z.ltb_spec (h + d) 200), (Z.ltb_spec 600 (h + d)),
    (Z.ltb_spec (h - d) 200), (Z.ltb_spec 600 (h - d)); lia.
Qed.

(** *** One request at a time *)

(** [isProcessing] is set exactly while a submission is suspended on its
    request, and there is never more than one. *)
Lemma one_request_in_flight (w : World) :
  reachable env w ->
  (isProcessing (render w) = false /\ inFlight w = [])
  \/ (isProcessing (render w) = true /\ exists id, inFlight w = [id]).
Proof.
  intros Hr. induction Hr as [visible|w ev Hr IH|w k Hr IH];
    [| |destruct (responded_spec k w) as (_ & _ & Hp & _ & _ & _ & Hf & _);
        now rewrite Hp, Hf].
  - left. unfold mount, useEffect_isVisible, run, render.
    destruct visible; split; reflexivity.
  - destruct ev as [visible|value|toastId|k outcome| | | | |y|y| ].
    + replace (isProcessing (render (step env w (ParentRenders visible))))
        with (isProcessing (render w)).
      replace (inFlight (step env w (ParentRenders visible)))
        with (inFlight w).
      exact IH.
      all: simpl; unfold parentRenders, useEffect_isVisible, run, render;
        destruct visible, (isVisible w), (isExpanded (cells (instance w)));
        reflexivity.
    + exact IH.
    + simpl. unfold submit.
      destruct (accepted env (render w)) eqn:Hacc.
      * rewrite (handleSubmit_accepted _ _ _ _ Hacc).
        apply accepted_iff in Hacc as (_ & Hp & _).
        destruct IH as [[_ Hf]|[Hp' _]]; [|congruence].
        right. split; [reflexivity|]. exists toastId. simpl. now rewrite Hf.
      * rewrite (handleSubmit_rejected _ _ _ _ Hacc). simpl.
        rewrite app_nil_r. exact IH.
    + destruct (settle_cases w k outcome) as [H|(id & Hk & H)]; rewrite H.
      * exact IH.
      * left. split; [reflexivity|]. simpl.
        destruct IH as [[_ Hf]|[_ [id' Hf]]]; rewrite Hf in *.
        -- now destruct k.
        -- destruct k as [|k]; [reflexivity|]. now destruct k.
    + exact IH.
    + exact IH.
    + exact IH.
    + exact IH.
    + destruct (step_mouse w (MouseDown y) eq_refl)
        as (_ & _ & Hp & _ & _ & _ & Hf & _).
      rewrite Hp, Hf. exact IH.
    + destruct (step_mouse w (MouseMove y) eq_refl)
        as (_ & _ & Hp & _ & _ & _ & Hf & _).
      rewrite Hp, Hf. exact IH.
    + destruct (step_mouse w MouseUp eq_refl)
        as (_ & _ & Hp & _ & _ & _ & Hf & _).
      rewrite Hp, Hf. exact IH.
Qed.

End Properties.

(** ** The properties at work *)

Lemma reachable_steps (env : Env) (w : World) (evs : list Event) :
  reachable env w -> reachable env (steps env w evs).
Proof.
  revert w. induction evs as [|ev evs IH]; intros w H; [exact H|].
  apply IH. now constructor.
Qed.

Lemma C1_witness :
  messages (render (step Scenario.env Scenario.typed (Submit 1)))
  = [ greeting;
      {| role := user; content := lit "What is mitosis?" |};
      {| role := assistant; content := Thinking |} ]
  /\ input (render (step Scenario.env Scenario.typed (Submit 1))) = []
  /\ isProcessing (render (step Scenario.env Scenario.typed (Submit 1))) = true.
Proof.
  destruct (C1_submit_appends_question_and_placeholder
              Scenario.env Scenario.typed 1) as (H1 & H2 & H3 & _).
  - vm_compute. discriminate.
  - reflexivity.
  - reflexivity.
  - split; [|split]; [exact H1 | exact H2 | exact H3].
Defined.

Lemma C2_witness :
  instance (step Scenario.envNoKey Scenario.typed (Submit 1))
  = instance Scenario.typed
  /\ inFlight (step Scenario.envNoKey Scenario.typed (Submit 1)) = []
  /\ calls (step Scenario.envNoKey Scenario.typed (Submit 1))
     = [PreventDefault; ToastError configurationError].
Proof.
  destruct (C2_rejected_submission_is_inert
              Scenario.envNoKey Scenario.typed 1) as (H1 & _ & H3 & _ & H5).
  - right. right. reflexivity.
  - split; [|split]; [exact H1 | exact H3 | exact H5].
Defined.

(** The claim C3 as it is worded fails: a reply whose text is
    [Thinking...] is appended after the placeholder has been filtered out,
    so the settled transcript holds an entry with that content. *)
Lemma C3_counterexample :
  nth_error (inFlight Scenario.asked) 0 = Some 1
  /\ In {| role := assistant; content := Thinking |}
        (messages (render (step Scenario.env Scenario.asked
                             (Settle 0 (Scenario.replies Thinking))))).
Proof.
  split; [reflexivity|]. vm_compute. right. right. left. reflexivity.
Qed.

Lemma C3_witness :
  isProcessing (render (step Scenario.env Scenario.asked
                          (Settle 0 (Scenario.replies (lit "Hello"))))) = false
  /\ exists entry,
       messages (render (step Scenario.env Scenario.asked
                           (Settle 0 (Scenario.replies (lit "Hello")))))
       = filter notThinking (messages (render Scenario.asked)) ++ [entry]
       /\ role entry = assistant
       /\ (forall m, In m (filter notThinking (messages (render Scenario.asked))) ->
                     content m <> Thinking)
       /\ (content entry = Thinking ->
           tryOutcome Scenario.env (Scenario.replies (lit "Hello")) = Ok Thinking).
Proof.
  apply (C3_settlement_removes_placeholder Scenario.env Scenario.asked 0 1).
  reflexivity.
Defined.

(** The claim C4 as it is worded fails for a reply that is not empty but
    blank: the handler treats it as an empty reply and appends its error
    text instead. *)
Lemma C4_counterexample :
  lit " " <> []
  /\ last (messages (render (step Scenario.env Scenario.asked
                               (Settle 0 (Scenario.replies (lit " "))))))
          greeting
     = {| role := assistant;
          content := lit "Error: Empty response from AI Please try again or rephrase your question." |}
  /\ last (messages (render (step Scenario.env Scenario.asked
                               (Settle 0 (Scenario.replies (lit " "))))))
          greeting
     <> {| role := assistant; content := lit " " |}.
Proof.
  split; [|split]; vm_compute; [discriminate | reflexivity | discriminate].
Qed.

(** The round trip of the specification: the body
    [{choices:[{message:{content:"Hello"}}]}]. *)
Lemma C4_witness :
  messages (render (step Scenario.env Scenario.asked
                      (Settle 0 (Scenario.replies (lit "Hello")))))
  = filter notThinking (messages (render Scenario.asked))
    ++ [ {| role := assistant; content := lit "Hello" |} ]
  /\ last (messages (render (step Scenario.env Scenario.asked
                               (Settle 0 (Scenario.replies (lit "Hello"))))))
          greeting
     = {| role := assistant; content := lit "Hello" |}
  /\ isProcessing (render (step Scenario.env Scenario.asked
                             (Settle 0 (Scenario.replies (lit "Hello")))))
     = false.
Proof.
  refine (C4_reply_is_appended Scenario.env Scenario.asked 0 1 _
            _ _ [] _ (lit "Hello") _ _ _ _ _ _ _).
  - reflexivity.
  - reflexivity.
  - reflexivity.
  - reflexivity.
  - reflexivity.
  - reflexivity.
  - vm_compute. discriminate.
Defined.

(** C5, at a 429 response whose body is a JSON error object.  The thrown
    message is the object's [error.message], which does not carry the
    status, so the [catch] block does not recognise the rate limit: the
    last entry is the generic error text. *)
Theorem C5_rate_limit_lost_with_json_body :
  let w' := step Scenario.env Scenario.asked
              (Settle 0 Scenario.tooManyRequests) in
  last (messages (render w')) greeting
  = {| role := assistant;
       content := lit "Error: Too many requests Please try again or rephrase your question." |}
  /\ includes (content (last (messages (render w')) greeting))
       (lit "Rate limit exceeded. Please wait a moment and try again.")
     = false
  /\ isProcessing (render w') = false.
Proof. vm_compute. repeat split. Qed.

(** C6, at a drag of the handle from rest: pointer down at 300 with the
    height at 400, then a move up to 200.  The listener that receives the
    move was created by the render in which [isResizing] was false and
    returns at its guard, so the height stays 400 where the formula gives
    500. *)
Theorem C6_drag_from_rest_does_not_resize :
  let w := steps Scenario.env (mount true) [MouseDown 300] in
  let w' := step Scenario.env w (MouseMove 200) in
  chatHeight (render (mount true)) = 400%Z
  /\ isResizing (render w) = true
  /\ startYRef (instance w) = 300%Z
  /\ startHeightRef (instance w) = 400%Z
  /\ map isResizing (listeners (instance w)) = [false]
  /\ chatHeight (render w') = 400%Z
  /\ clamp (400 + (300 - 200)) 200 600 = 500%Z.
Proof. vm_compute. repeat split. Qed.


Lemma C8_witness :
  nth_error (messages (render Scenario.asked)) 0 = Some greeting
  /\ forall ev,
       let w' := step Scenario.env Scenario.asked ev in
       (exists added,
           messages (render w') = messages (render Scenario.asked) ++ added)
       \/ (exists k outcome added,
             ev = Settle k outcome
             /\ messages (render w')
                = filter (fun m => negb (JsString.eqb (content m) Thinking))
                    (messages (render Scenario.asked)) ++ added).
Proof.
  apply (C8_greeting_stays_first Scenario.env Scenario.asked).
  apply reach_step.
  apply (reach_step Scenario.env (mount true)
           (Change (lit " What is mitosis? "))).
  apply reach_mount.
Defined.

Lemma C9_witness :
  isExpanded (render (mount false)) = false
  /\ isExpanded (render (step Scenario.env (mount false) (ParentRenders true)))
     = true
  /\ isExpanded (render (step Scenario.env (mount false) (Change (lit "a"))))
     = false.
Proof.
  destruct (C9_auto_expand_once_per_show Scenario.env (mount false))
    as (H1 & H2 & _).
  split; [reflexivity|]. split.
  - apply H1. reflexivity.
  - apply H2.
    + reflexivity.
    + discriminate.
    + discriminate.
Defined.

Lemma C10_witness :
  In {| role := user; content := Thinking |}
     (messages (render (step Scenario.env Scenario.typedThinking (Submit 1))))
  /\ ~ In {| role := user; content := Thinking |}
          (messages (render (step Scenario.env
                               (step Scenario.env Scenario.typedThinking (Submit 1))
                               (Settle 0 (Scenario.replies (lit "Hello")))))).
Proof.
  destruct (C10_removal_is_by_content Scenario.env Scenario.typedThinking 1
              (Scenario.replies (lit "Hello"))) as (_ & H).
  destruct H as (H1 & H2 & _).
  - reflexivity.
  - reflexivity.
  - reflexivity.
  - split; [exact H1 | exact H2].
Defined.

(** * Further properties of the widget *)

Section More.

Variable env : Env.

#[local] Arguments lit : simpl never.
#[local] Arguments requestBody : simpl never.
#[local] Arguments bearer : simpl never.
#[local] Opaque lit.

(** *** Frames *)

Lemma submit_accepted_world (w : World) (toastId : N) :
  accepted env (render w) = true ->
  step env w (Submit toastId)
  = {| instance :=
         withCells
           {| messages := messages (render w)
                          ++ [ {| role := user; content := trim (input (render w)) |};
                               {| role := assistant; content := Thinking |} ];
              input := [];
              isProcessing := true;
              isExpanded := isExpanded (render w);
              chatHeight := chatHeight (render w);
              isResizing := isResizing (render w) |} (instance w);
       isVisible := isVisible w;
       inFlight := inFlight w ++ [toastId];
       calls := calls w
                ++ [ PreventDefault;
                     ToastLoading (lit "Processing your question...");
                     Fetch GROQ_API_URL
                       {| method := lit "POST";
                          authorization := bearer env;
                          contentType := lit "application/json";
                          body := requestBody (variant env) (ocrText env)
                                    (trim (input (render w))) |} ] |}.
Proof.
  intros Hacc. simpl. unfold submit.
  rewrite (handleSubmit_accepted _ _ _ _ _ Hacc). reflexivity.
Qed.

Lemma submit_rejected_world (w : World) (toastId : N) :
  accepted env (render w) = false ->
  let w' := step env w (Submit toastId) in
  instance w' = instance w
  /\ isVisible w' = isVisible w
  /\ inFlight w' = inFlight w
  /\ filter isFetch (calls w') = filter isFetch (calls w).
Proof.
  intros Hacc. simpl. unfold submit.
  rewrite (handleSubmit_rejected _ _ _ _ _ Hacc). simpl.
  repeat split.
  - apply app_nil_r.
  - rewrite filter_app. simpl.
    destruct (nonEmpty _ && negb _); simpl; apply app_nil_r.
Qed.

Lemma step_sameConversation (w : World) (ev : Event) :
  isRequestEvent ev = false -> sameConversation w (step env w ev).
Proof.
  unfold sameConversation.
  destruct ev as [visible|value|toastId|k outcome| | | | |y|y| ];
    try discriminate; intros _.
  - simpl. unfold parentRenders, useEffect_isVisible, run, render.
    destruct visible, (isVisible w), (isExpanded (cells (instance w)));
      repeat split.
  - repeat split.
  - repeat split.
  - repeat split.
  - repeat split.
  - simpl. repeat split. rewrite filter_app. simpl. apply app_nil_r.
  - destruct (step_mouse env w (MouseDown y) eq_refl)
      as (Hm & _ & Hp & _ & _ & _ & Hf & Hc).
    rewrite Hm, Hp, Hf, Hc. repeat split.
  - destruct (step_mouse env w (MouseMove y) eq_refl)
      as (Hm & _ & Hp & _ & _ & _ & Hf & Hc).
    rewrite Hm, Hp, Hf, Hc. repeat split.
  - destruct (step_mouse env w MouseUp eq_refl)
      as (Hm & _ & Hp & _ & _ & _ & Hf & Hc).
    rewrite Hm, Hp, Hf, Hc. repeat split.
Qed.

(** *** One request, and what the transcript looks like meanwhile *)

(** X1.  In every state the widget can reach, [isProcessing] is set exactly
    while one [handleSubmit] call is suspended on its request, and no
    second one is ever suspended at the same time. *)
Theorem X1_one_request_at_a_time (w : World) :
  reachable env w ->
  (isProcessing (render w) = false /\ inFlight w = [])
  \/ (isProcessing (render w) = true /\ exists id, inFlight w = [id]).
Proof. apply one_request_in_flight. Qed.

(** X2.  In every state the widget can reach the height of the panel lies
    between 200 and 600 pixels. *)
Theorem X2_height_within_bounds (w : World) :
  reachable env w -> (200 <= chatHeight (render w) <= 600)%Z.
Proof. apply chatHeight_bounds. Qed.



(** X4.  A widget built without the credential never gets anywhere: in
    every state it can reach the transcript is the greeting alone, nothing
    is in flight and [fetch] has not been called. *)
Theorem X4_without_key_nothing_is_sent (w : World) :
  hasApiKey env = false ->
  reachable env w ->
  messages (render w) = [greeting]
  /\ isProcessing (render w) = false
  /\ inFlight w = []
  /\ filter isFetch (calls w) = [].
Proof.
  intros Hkey Hr. induction Hr as [visible|w ev Hr IH|w k Hr IH].
  3: { destruct IH as (Hm & Hp & Hf & Hc).
       destruct (responded_spec k w) as ([Hm'|Hm'] & _ & Hp' & _ & _ & _ & Hf' & Hc');
         rewrite Hm', Hp', Hf', Hc', ?Hm; repeat split; auto. }
  - unfold mount, useEffect_isVisible, run, render.
    destruct visible; repeat split.
  - destruct IH as (Hm & Hp & Hf & Hc).
    destruct (isRequestEvent ev) eqn:Hev.
    + destruct ev as [| |toastId|k outcome| | | | | | | ]; try discriminate.
      * assert (Hacc : accepted env (render w) = false)
          by (apply not_accepted_iff; auto).
        destruct (submit_rejected_world w toastId Hacc) as (Hi & _ & Hf' & Hc').
        unfold render in *. rewrite Hi, Hf', Hc'. auto.
      * simpl. unfold settle. rewrite Hf.
        destruct k; simpl; auto.
    + destruct (step_sameConversation w ev Hev) as (Hm' & Hp' & Hf' & Hc').
      rewrite Hm', Hp', Hf', Hc'. auto.
Qed.

(** *** What is sent, and when *)

Lemma settledCalls_no_fetch id outcome :
  filter isFetch (settledCalls env id outcome) = [].
Proof.
  unfold settledCalls. rewrite filter_app.
  destruct (id =? 0), (tryOutcome env outcome); reflexivity.
Qed.

Lemma hasApiKey_bearer :
  hasApiKey env = true ->
  exists key,
    GROQ_API_KEY env = Some key /\ key <> []
    /\ bearer env = lit "Bearer " ++ key.
Proof.
  unfold hasApiKey, bearer. destruct (GROQ_API_KEY env) as [key|];
    [|discriminate].
  intros H. exists key. repeat split. now apply nonEmpty_true.
Qed.

(** X5.  Every [fetch] call the widget ever makes is a POST with a JSON
    content type whose [Authorization] header is [Bearer] followed by the
    configured credential, which is a non-empty string. *)
Theorem X5_request_headers (w : World) url init :
  reachable env w ->
  In (Fetch url init) (calls w) ->
  method init = lit "POST"
  /\ contentType init = lit "application/json"
  /\ exists key,
       GROQ_API_KEY env = Some key /\ key <> []
       /\ authorization init = lit "Bearer " ++ key.
Proof.
  intros Hr. induction Hr as [visible|w ev Hr IH|w k Hr IH]; intros Hin.
  3: { destruct (responded_spec k w) as (_ & _ & _ & _ & _ & _ & _ & Hc).
       rewrite Hc in Hin. auto. }
  - exfalso. unfold mount, useEffect_isVisible, run in Hin.
    destruct visible; simpl in Hin; exact Hin.
  - assert (Hold : In (Fetch url init) (filter isFetch (calls w)) ->
                   In (Fetch url init) (calls w))
      by (intros H; now apply filter_In in H).
    assert (Hnew : In (Fetch url init) (filter isFetch (calls (step env w ev))))
      by (apply filter_In; auto).
    destruct (isRequestEvent ev) eqn:Hev.
    + destruct ev as [| |toastId|k outcome| | | | | | | ]; try discriminate.
      * destruct (accepted env (render w)) eqn:Hacc.
        -- rewrite (submit_accepted_world _ _ Hacc) in Hin. simpl in Hin.
           apply in_app_or in Hin as [Hin|Hin]; [auto|].
           destruct Hin as [Hin|[Hin|[Hin|[]]]]; try discriminate.
           injection Hin as _ <-. simpl.
           apply accepted_iff in Hacc as (_ & _ & Hkey).
           repeat split. now apply hasApiKey_bearer.
        -- destruct (submit_rejected_world w toastId Hacc) as (_ & _ & _ & Hc).
           rewrite Hc in Hnew. auto.
      * destruct (settle_cases env w k outcome) as [H|(id & _ & H)];
          rewrite H in Hnew; [auto|].
        simpl in Hnew. rewrite filter_app, settledCalls_no_fetch, app_nil_r in Hnew.
        auto.
    + destruct (step_sameConversation w ev Hev) as (_ & _ & _ & Hc).
      rewrite Hc in Hnew. auto.
Qed.

(** X6.  Only a submit event calls [fetch], and at most once: every other
    event, the settlement of a failed request included, leaves the list of
    [fetch] calls as it was, so nothing is ever retried. *)
Theorem X6_only_submit_fetches (w : World) (ev : Event) :
  (forall toastId, ev <> Submit toastId) ->
  filter isFetch (calls (step env w ev)) = filter isFetch (calls w).
Proof.
  intros Hev.
  destruct (isRequestEvent ev) eqn:E.
  - destruct ev as [| |toastId|k outcome| | | | | | | ]; try discriminate.
    + now destruct (Hev toastId).
    + destruct (settle_cases env w k outcome) as [H|(id & _ & H)];
        rewrite H; [reflexivity|].
      simpl. now rewrite filter_app, settledCalls_no_fetch, app_nil_r.
  - apply (step_sameConversation w ev E).
Qed.

(** *** A whole turn of the conversation *)

(** X7.  An accepted question whose trimmed text is not [Thinking...],
    followed by the settlement of its request, leaves the transcript as it
    was (without entries of content [Thinking...]) plus two entries: the
    question and one assistant entry.  The input is empty, [isProcessing]
    is false and nothing is in flight. *)
Theorem X7_one_turn (w : World) (toastId : N) (outcome : FetchOutcome) :
  accepted env (render w) = true ->
  inFlight w = [] ->
  trim (input (render w)) <> Thinking ->
  let w' := steps env w [Submit toastId; Settle 0 outcome] in
  (exists answer,
      role answer = assistant
      /\ messages (render w')
         = filter notThinking (messages (render w))
           ++ [ {| role := user; content := trim (input (render w)) |};
                answer ])
  /\ input (render w') = []
  /\ isProcessing (render w') = false
  /\ inFlight w' = [].
Proof.
  intros Hacc Hf Hq.
  change (steps env w [Submit toastId; Settle 0 outcome])
    with (step env (step env w (Submit toastId)) (Settle 0 outcome)).
  rewrite (submit_accepted_world _ _ Hacc).
  rewrite (settle_spec env _ 0 toastId outcome)
    by (simpl; rewrite Hf; reflexivity).
  simpl. rewrite Hf. repeat split.
  exists (settledEntry env outcome). split.
  - apply settledEntry_assistant.
  - unfold render. simpl. rewrite filter_app. simpl.
    assert (E : notThinking {| role := user;
                               content := trim (input (cells (instance w))) |}
                = true) by (apply notThinking_true; exact Hq).
    rewrite E. unfold notThinking at 2. simpl. rewrite eqb_refl. simpl.
    rewrite <- app_assoc. reflexivity.
Qed.

(** *** How a request ends *)

Lemma newCalls_settle (w : World) k id outcome :
  nth_error (inFlight w) k = Some id ->
  newCalls w (step env w (Settle k outcome)) = settledCalls env id outcome.
Proof.
  intros H. rewrite (settle_spec env _ _ _ _ H). unfold newCalls. simpl.
  rewrite skipn_app, skipn_all, Nat.sub_diag. reflexivity.
Qed.

Lemma settle_last (w : World) k id outcome :
  nth_error (inFlight w) k = Some id ->
  last (messages (render (step env w (Settle k outcome)))) greeting
  = settledEntry env outcome.
Proof.
  intros H. rewrite (settle_spec env _ _ _ _ H). unfold render. simpl.
  apply last_last.
Qed.

Lemma aiResponse_of_Ok (data : json) (text : jsstring) :
  aiResponse_of env data = Ok text ->
  exists choices choice message,
    Js.getProp (typeErrorMessage env) (Some data) (lit "choices") = Ok choices
    /\ Js.getIndex0 (typeErrorMessage env) choices = Ok choice
    /\ Js.getProp (typeErrorMessage env) choice (lit "message") = Ok message
    /\ Js.getProp (typeErrorMessage env) message (lit "content")
       = Ok (Some (JString text))
    /\ trim text <> [].
Proof.
  unfold aiResponse_of. cbn [bind result_Monad ret].
  destruct (Js.getProp _ (Some data) _) as [choices|] eqn:E1; [|discriminate].
  destruct (truthy choices); cbn [negb]; [|discriminate].
  destruct (Js.getIndex0 _ choices) as [choice|] eqn:E2; [|discriminate].
  destruct (truthy choice); cbn [negb]; [|discriminate].
  destruct (Js.getProp _ choice _) as [message|] eqn:E3; [|discriminate].
  destruct (truthy message); cbn [negb]; [|discriminate].
  destruct (Js.getProp _ message _) as [aiResponse|] eqn:E4; [|discriminate].
  destruct (truthy aiResponse); cbn [negb]; [|discriminate].
  destruct aiResponse as [[| | |s| |]|]; try discriminate.
  destruct (JsString.eqb (trim s) []) eqn:E5; [discriminate|].
  intros [= <-]. exists choices, choice, message.
  repeat split; auto. now apply eqb_neq.
Qed.

Lemma tryOutcome_Ok (outcome : FetchOutcome) (text : jsstring) :
  tryOutcome env outcome = Ok text ->
  exists response data,
    outcome = Resolved response
    /\ ok response = true
    /\ response_json response = Ok data
    /\ aiResponse_of env data = Ok text.
Proof.
  unfold tryOutcome. destruct outcome as [e|response]; [discriminate|].
  cbn [bind result_Monad ret].
  destruct (ok response) eqn:Hok; cbn [negb].
  - destruct (response_json response) as [data|] eqn:E; [|discriminate].
    intros H. exists response, data. repeat split; auto.
  - destruct (response_text response); [|discriminate].
    destruct (Js.newError _ _); discriminate.
Qed.

(** X8.  A settlement raises the success toast only when the response was
    [ok] and its parsed body has a string at [choices[0].message.content]
    that is not blank; the last entry of the transcript is then the
    assistant message with exactly that string. *)
Theorem X8_success_needs_wellformed_body (w : World) k id outcome :
  nth_error (inFlight w) k = Some id ->
  let w' := step env w (Settle k outcome) in
  In (ToastSuccess (lit "Response generated successfully!")) (newCalls w w') ->
  exists response data choices choice message text,
    outcome = Resolved response
    /\ ok response = true
    /\ response_json response = Ok data
    /\ Js.getProp (typeErrorMessage env) (Some data) (lit "choices") = Ok choices
    /\ Js.getIndex0 (typeErrorMessage env) choices = Ok choice
    /\ Js.getProp (typeErrorMessage env) choice (lit "message") = Ok message
    /\ Js.getProp (typeErrorMessage env) message (lit "content")
       = Ok (Some (JString text))
    /\ trim text <> []
    /\ last (messages (render w')) greeting
       = {| role := assistant; content := text |}.
Proof.
  intros H w' Hin. subst w'.
  rewrite (newCalls_settle _ _ _ _ H) in Hin.
  rewrite (settle_last _ _ _ _ H).
  unfold settledCalls, settledEntry in *.
  destruct (tryOutcome env outcome) as [text|e] eqn:E.
  - destruct (tryOutcome_Ok _ _ E) as (response & data & -> & Hok & Hj & Ha).
    destruct (aiResponse_of_Ok _ _ Ha) as (c & c0 & m & H1 & H2 & H3 & H4 & H5).
    exists response, data, c, c0, m, text. repeat split; auto.
  - exfalso. apply in_app_or in Hin as [Hin|Hin].
    + destruct (id =? 0); simpl in Hin; [|destruct Hin as [Hin|Hin]];
        try discriminate; exact Hin.
    + destruct Hin as [Hin|[]]. discriminate.
Qed.

(** X9.  Every settlement dismisses the loading toast when its id is
    truthy and then raises exactly one toast.  That toast is the success
    toast or the error toast, and with the error toast the last entry of
    the transcript is an assistant message that ends with the suggestion to
    try again or rephrase. *)
Theorem X9_settlement_toasts (w : World) k id outcome :
  nth_error (inFlight w) k = Some id ->
  let w' := step env w (Settle k outcome) in
  exists result,
    newCalls w w'
    = (if id =? 0 then [] else [ToastDismiss id]) ++ [result]
    /\ (result = ToastSuccess (lit "Response generated successfully!")
        \/ (result = ToastError (lit "Failed to generate response")
            /\ exists text,
                 last (messages (render w')) greeting
                 = {| role := assistant;
                      content := text ++ retrySuggestion |})).
Proof.
  intros H w'. subst w'.
  rewrite (newCalls_settle _ _ _ _ H), (settle_last _ _ _ _ H).
  unfold settledCalls, settledEntry.
  destruct (tryOutcome env outcome) as [text|e].
  - eexists. split; [reflexivity|]. now left.
  - eexists. split; [reflexivity|]. right. split; [reflexivity|].
    now exists (classify e).
Qed.

(** *** Failed requests *)

Lemma settledEntry_notOk (response : Response) errorText parsed :
  ok response = false ->
  bodyRead response = BodyText errorText parsed ->
  settledEntry env (Resolved response)
  = {| role := assistant;
       content :=
         classify
           (ErrorObj
              match toStringJ (errorMessage_notOk env response errorText) with
              | Some m => m
              | None => typeErrorMessage env NoPrimitiveValue
              end) ++ retrySuggestion |}.
Proof.
  intros Hok Hb. unfold settledEntry, tryOutcome, response_text.
  cbn [bind result_Monad ret]. rewrite Hok, Hb. cbn [negb].
  unfold Js.newError, Js.TypeError.
  destruct (toStringJ _); reflexivity.
Qed.

Lemma errorMessage_notOk_object (response : Response) errorText props :
  bodyRead response = BodyText errorText (Parsed (JObject props)) ->
  errorMessage_notOk env response errorText
  = let a := match lookup (lit "error") props with
             | None | Some JNull => None
             | Some (JObject eprops) => lookup (lit "message") eprops
             | Some _ => None
             end in
    if truthy a
    then match a with Some v => v | None => JNull end
    else if truthy (lookup (lit "message") props)
         then match lookup (lit "message") props with
              | Some v => v
              | None => JNull
              end
         else JString (lit "Failed to get response from AI").
Proof.
  intros Hb. unfold errorMessage_notOk, JSON_parse. rewrite Hb.
  cbn [bind result_Monad ret Js.getProp].
  destruct (lookup (lit "error") props) as [[| | | | |eprops]|];
    cbn [Js.getPropOpt Js.getProp bind result_Monad ret truthy];
    try (destruct (truthy (lookup (lit "message") props)) eqn:E;
         [destruct (lookup (lit "message") props); [reflexivity|discriminate]
         |reflexivity]).
  destruct (truthy (lookup (lit "message") eprops)) eqn:E1.
  - destruct (lookup (lit "message") eprops); [reflexivity|discriminate].
  - destruct (truthy (lookup (lit "message") props)) eqn:E;
      [destruct (lookup (lit "message") props); [reflexivity|discriminate]
      |reflexivity].
Qed.

(** X10.  When a response that is not [ok] carries a JSON object whose
    [error.message] is a non-empty string, the text shown is decided by
    that string alone: the status of the response plays no part. *)
Theorem X10_error_body_message_decides (w : World) k id
    (response : Response) errorText props eprops message :
  nth_error (inFlight w) k = Some id ->
  ok response = false ->
  bodyRead response = BodyText errorText (Parsed (JObject props)) ->
  lookup (lit "error") props = Some (JObject eprops) ->
  lookup (lit "message") eprops = Some (JString message) ->
  message <> [] ->
  last (messages (render (step env w (Settle k (Resolved response))))) greeting
  = {| role := assistant;
       content := classify (ErrorObj message) ++ retrySuggestion |}.
Proof.
  intros H Hok Hb He Hm Hne.
  rewrite (settle_last _ _ _ _ H), (settledEntry_notOk _ _ _ Hok Hb).
  rewrite (errorMessage_notOk_object _ _ _ Hb), He, Hm.
  cbn [truthy]. apply nonEmpty_true in Hne. rewrite Hne. reflexivity.
Qed.

Lemma plain_error_body (w : World) k id (response : Response)
    errorText parsed :
  nth_error (inFlight w) k = Some id ->
  ok response = false ->
  bodyRead response = BodyText errorText parsed ->
  (parsed = Parsed JNull \/ exists m, parsed = SyntaxError m) ->
  last (messages (render (step env w (Settle k (Resolved response))))) greeting
  = {| role := assistant;
       content :=
         classify (ErrorObj (httpErrorMessage (status response) errorText))
         ++ retrySuggestion |}.
Proof.
  intros H Hok Hb Hp.
  rewrite (settle_last _ _ _ _ H), (settledEntry_notOk _ _ _ Hok Hb).
  assert (E : errorMessage_notOk env response errorText
              = JString (httpErrorMessage (status response) errorText)).
  { unfold errorMessage_notOk, JSON_parse. rewrite Hb.
    destruct Hp as [->|[m ->]]; reflexivity. }
  rewrite E. reflexivity.
Qed.

(** X11.  When the body of a response that is not [ok] is not JSON, or is
    the JSON value [null], the thrown message is [HTTP <status>: <body>]
    and the text shown is the classification of that message. *)
Theorem X11_plain_error_body (w : World) k id (response : Response)
    errorText parsed :
  nth_error (inFlight w) k = Some id ->
  ok response = false ->
  bodyRead response = BodyText errorText parsed ->
  (parsed = Parsed JNull \/ exists m, parsed = SyntaxError m) ->
  last (messages (render (step env w (Settle k (Resolved response))))) greeting
  = {| role := assistant;
       content :=
         classify (ErrorObj (httpErrorMessage (status response) errorText))
         ++ retrySuggestion |}.
Proof.
  apply plain_error_body.
Qed.

(** X12.  When a response that is not [ok] carries a JSON object with
    neither an [error] property nor a truthy [message], the text shown is
    the fixed fallback. *)
Theorem X12_error_body_without_message (w : World) k id
    (response : Response) errorText props :
  nth_error (inFlight w) k = Some id ->
  ok response = false ->
  bodyRead response = BodyText errorText (Parsed (JObject props)) ->
  lookup (lit "error") props = None ->
  truthy (lookup (lit "message") props) = false ->
  last (messages (render (step env w (Settle k (Resolved response))))) greeting
  = {| role := assistant;
       content := lit "Error: Failed to get response from AI"
                  ++ retrySuggestion |}.
Proof.
  intros H Hok Hb He Hm.
  rewrite (settle_last _ _ _ _ H), (settledEntry_notOk _ _ _ Hok Hb).
  rewrite (errorMessage_notOk_object _ _ _ Hb), He.
  cbn [truthy]. rewrite Hm. cbn [toStringJ].
  assert (E : classify (ErrorObj (lit "Failed to get response from AI"))
              = lit "Error: Failed to get response from AI")
    by (vm_compute; reflexivity).
  rewrite E. reflexivity.
Qed.

Lemma includes_status (status : N) (errorText code : jsstring) :
  includes (lit "HTTP " ++ ofN status ++ lit ": ") code = true ->
  includes (httpErrorMessage status errorText) code = true.
Proof.
  intros H. unfold httpErrorMessage.
  replace (lit "HTTP " ++ ofN status ++ lit ": " ++ errorText)
    with ((lit "HTTP " ++ ofN status ++ lit ": ") ++ errorText)
    by (now rewrite <- !app_assoc).
  now apply includes_app.
Qed.

(** X13.  For a response that is not [ok] and whose body is not JSON the
    status is part of the thrown message, so 401, 429 and 404 are shown as
    the authentication, rate-limit and model-unavailable texts, provided
    the message does not already match an earlier test of the [catch]
    block. *)
Theorem X13_status_recognised_in_plain_body (w : World) k id
    (response : Response) errorText syntaxError :
  nth_error (inFlight w) k = Some id ->
  bodyRead response = BodyText errorText (SyntaxError syntaxError) ->
  let message := httpErrorMessage (status response) errorText in
  let shown :=
    content (last (messages (render (step env w (Settle k (Resolved response)))))
               greeting) in
  includes message (lit "Failed to fetch") = false ->
  includes message (lit "NetworkError") = false ->
  (status response = 401 ->
   shown = lit "Authentication error. The Groq API key may be invalid."
           ++ retrySuggestion)
  /\ (status response = 429 ->
      includes message (lit "401") = false ->
      shown = lit "Rate limit exceeded. Please wait a moment and try again."
              ++ retrySuggestion)
  /\ (status response = 404 ->
      includes message (lit "401") = false ->
      includes message (lit "429") = false ->
      shown = lit "The AI model is not available. Please try again later."
              ++ retrySuggestion).
Proof.
  intros H Hb message shown H1 H2.
  assert (E : forall code,
             status response = code -> ok response = false ->
             shown = classify (ErrorObj (httpErrorMessage code errorText))
                     ++ retrySuggestion).
  { intros code Hs Hok. subst shown.
    rewrite (plain_error_body w k id response errorText
               (SyntaxError syntaxError) H Hok Hb), Hs; [reflexivity|].
    right. now exists syntaxError. }
  subst message. repeat split.
  - intros Hs. rewrite Hs in H1, H2.
    rewrite (E 401 Hs) by (unfold ok; now rewrite Hs).
    unfold classify. rewrite H1, H2. cbn [orb].
    rewrite (includes_status 401 errorText (lit "401"))
      by (vm_compute; reflexivity).
    reflexivity.
  - intros Hs H3. rewrite Hs in H1, H2, H3.
    rewrite (E 429 Hs) by (unfold ok; now rewrite Hs).
    unfold classify. rewrite H1, H2, H3. cbn [orb].
    rewrite (includes_status 429 errorText (lit "429"))
      by (vm_compute; reflexivity).
    reflexivity.
  - intros Hs H3 H4. rewrite Hs in H1, H2, H3, H4.
    rewrite (E 404 Hs) by (unfold ok; now rewrite Hs).
    unfold classify. rewrite H1, H2, H3, H4. cbn [orb].
    rewrite (includes_status 404 errorText (lit "404"))
      by (vm_compute; reflexivity).
    reflexivity.
Qed.

(** X14.  When [fetch] itself rejects, nothing is read from a response:
    an error whose message mentions [Failed to fetch] or [NetworkError] is
    shown as the network error, whatever else the message contains, and a
    rejection with something that is not an [Error] is shown as the
    generic apology. *)
Theorem X14_transport_failure (w : World) k id :
  nth_error (inFlight w) k = Some id ->
  (forall message,
      includes message (lit "Failed to fetch") = true
      \/ includes message (lit "NetworkError") = true ->
      last (messages (render (step env w
              (Settle k (Rejected (ErrorObj message)))))) greeting
      = {| role := assistant;
           content := lit "Network error. Please check your internet connection and try again."
                      ++ retrySuggestion |})
  /\ last (messages (render (step env w (Settle k (Rejected NonError)))))
          greeting
     = {| role := assistant;
          content := lit "Sorry, I encountered an error while processing your question."
                     ++ retrySuggestion |}.
Proof.
  intros H. split.
  - intros message Hm. rewrite (settle_last _ _ _ _ H).
    unfold settledEntry, tryOutcome, classify. cbn [bind result_Monad].
    destruct Hm as [-> | ->]; [reflexivity|].
    rewrite orb_true_r. reflexivity.
  - rewrite (settle_last _ _ _ _ H). reflexivity.
Qed.

(** *** Responses that are [ok] but carry no reply *)

Lemma settledEntry_ok (response : Response) (data : json) :
  ok response = true ->
  response_json response = Ok data ->
  settledEntry env (Resolved response)
  = match aiResponse_of env data with
    | Ok text => {| role := assistant; content := text |}
    | Throw e => {| role := assistant;
                    content := classify e ++ retrySuggestion |}
    end.
Proof.
  intros Hok Hj. unfold settledEntry, tryOutcome.
  cbn [bind result_Monad ret]. rewrite Hok, Hj. reflexivity.
Qed.

Lemma classify_invalid :
  classify (ErrorObj (lit "Invalid response format from API"))
  = lit "Error: Invalid response format from API".
Proof. vm_compute. reflexivity. Qed.

Lemma classify_empty :
  classify (ErrorObj (lit "Empty response from AI"))
  = lit "Error: Empty response from AI".
Proof. vm_compute. reflexivity. Qed.

(** X15.  An [ok] response whose JSON object has no truthy [choices], an
    empty [choices] array, or a first choice without a truthy [message],
    appends the invalid-format error instead of a reply. *)
Theorem X15_malformed_success_body (w : World) k id
    (response : Response) props :
  nth_error (inFlight w) k = Some id ->
  ok response = true ->
  response_json response = Ok (JObject props) ->
  (truthy (lookup (lit "choices") props) = false
   \/ lookup (lit "choices") props = Some (JArray [])
   \/ exists cprops rest,
        lookup (lit "choices") props = Some (JArray (JObject cprops :: rest))
        /\ truthy (lookup (lit "message") cprops) = false) ->
  last (messages (render (step env w (Settle k (Resolved response))))) greeting
  = {| role := assistant;
       content := lit "Error: Invalid response format from API"
                  ++ retrySuggestion |}.
Proof.
  intros H Hok Hj Hc.
  rewrite (settle_last _ _ _ _ H), (settledEntry_ok _ _ Hok Hj).
  assert (E : aiResponse_of env (JObject props)
              = Throw (ErrorObj (lit "Invalid response format from API"))).
  { unfold aiResponse_of. cbn [bind result_Monad ret Js.getProp].
    destruct Hc as [Hc|[Hc|(cprops & rest & Hc & Hm)]]; rewrite Hc.
    - reflexivity.
    - reflexivity.
    - cbn [truthy negb Js.getIndex0 hd_error Js.getProp]. rewrite Hm.
      reflexivity. }
  rewrite E, classify_invalid. reflexivity.
Qed.

(** X16.  An [ok] response whose [choices[0].message] is an object with a
    missing or falsy [content], or with a [content] string that is blank,
    appends the empty-response error instead of a reply. *)
Theorem X16_empty_reply (w : World) k id (response : Response)
    props cprops rest mprops :
  nth_error (inFlight w) k = Some id ->
  ok response = true ->
  response_json response = Ok (JObject props) ->
  lookup (lit "choices") props = Some (JArray (JObject cprops :: rest)) ->
  lookup (lit "message") cprops = Some (JObject mprops) ->
  (truthy (lookup (lit "content") mprops) = false
   \/ exists text,
        lookup (lit "content") mprops = Some (JString text)
        /\ trim text = []) ->
  last (messages (render (step env w (Settle k (Resolved response))))) greeting
  = {| role := assistant;
       content := lit "Error: Empty response from AI" ++ retrySuggestion |}.
Proof.
  intros H Hok Hj Hc Hm Ht.
  rewrite (settle_last _ _ _ _ H), (settledEntry_ok _ _ Hok Hj).
  assert (E : aiResponse_of env (JObject props)
              = Throw (ErrorObj (lit "Empty response from AI"))).
  { unfold aiResponse_of. cbn [bind result_Monad ret Js.getProp].
    rewrite Hc. cbn [truthy negb Js.getIndex0 hd_error Js.getProp].
    rewrite Hm. cbn [truthy negb Js.getProp bind result_Monad ret].
    destruct Ht as [Ht|(text & Ht & Hb)]; rewrite Ht.
    - reflexivity.
    - cbn [truthy]. rewrite Hb.
      destruct (nonEmpty text); reflexivity. }
  rewrite E, classify_empty. reflexivity.
Qed.

(** *** The panel and the parent *)

Lemma parentRenders_frame (w : World) (visible : bool) :
  let w' := step env w (ParentRenders visible) in
  messages (render w') = messages (render w)
  /\ input (render w') = input (render w)
  /\ isProcessing (render w') = isProcessing (render w)
  /\ chatHeight (render w') = chatHeight (render w)
  /\ inFlight w' = inFlight w
  /\ calls w' = calls w.
Proof.
  simpl. unfold parentRenders, useEffect_isVisible, run, render.
  destruct visible, (isVisible w), (isExpanded (cells (instance w)));
    repeat split.
Qed.

(** X17.  Whatever the parent does with [isVisible], the conversation is
    untouched: the transcript, the input, [isProcessing], the height and
    the request in flight are as before, and no call is made.  Hiding the
    widget neither clears the conversation nor abandons a pending
    request. *)
Theorem X17_visibility_keeps_conversation (w : World) (visible : bool) :
  let w' := step env w (ParentRenders visible) in
  messages (render w') = messages (render w)
  /\ input (render w') = input (render w)
  /\ isProcessing (render w') = isProcessing (render w)
  /\ chatHeight (render w') = chatHeight (render w)
  /\ inFlight w' = inFlight w
  /\ calls w' = calls w.
Proof. apply parentRenders_frame. Qed.

(** X18.  The parent's [onToggle] callback is called by the close button
    and by nothing else: the close button calls it once and changes no
    state of the widget, and no other event calls it. *)
Theorem X18_only_close_calls_onToggle (w : World) (ev : Event) :
  (ev = ClickClose ->
   calls (step env w ev) = calls w ++ [OnToggle]
   /\ instance (step env w ev) = instance w
   /\ inFlight (step env w ev) = inFlight w)
  /\ (ev <> ClickClose ->
      filter isOnToggle (calls (step env w ev))
      = filter isOnToggle (calls w)).
Proof.
  split.
  - intros ->. repeat split.
  - intros Hev.
    destruct ev as [visible|value|toastId|k outcome| | | | |y|y| ];
      try reflexivity.
    + now destruct (parentRenders_frame w visible) as (_ & _ & _ & _ & _ & ->).
    + destruct (accepted env (render w)) eqn:Hacc.
      * rewrite (submit_accepted_world _ _ Hacc). simpl.
        rewrite filter_app. simpl. apply app_nil_r.
      * simpl. unfold submit.
        rewrite (handleSubmit_rejected _ _ _ _ _ Hacc). simpl.
        rewrite filter_app. simpl.
        destruct (nonEmpty _ && negb _); simpl; apply app_nil_r.
    + destruct (settle_cases env w k outcome) as [H|(id & _ & H)];
        rewrite H; [reflexivity|].
      simpl. rewrite filter_app. unfold settledCalls. rewrite filter_app.
      destruct (id =? 0), (tryOutcome env outcome); simpl; apply app_nil_r.
    + congruence.
    + now destruct (step_mouse env w (MouseMove y) eq_refl)
        as (_ & _ & _ & _ & _ & _ & _ & ->).
    + now destruct (step_mouse env w MouseUp eq_refl)
        as (_ & _ & _ & _ & _ & _ & _ & ->).
Qed.

(** *** What the transcript holds *)

Lemma trimStart_noLead (s : jsstring) : noLead (trimStart s).
Proof.
  induction s as [|c s IH]; simpl; [exact I|].
  destruct (isWhiteSpace c) eqn:E; [exact IH|exact E].
Qed.

Lemma trimStart_id (s : jsstring) : noLead s -> trimStart s = s.
Proof. destruct s as [|c s]; simpl; [reflexivity|]. now intros ->. Qed.

Lemma trimStart_suffix (s : jsstring) : exists ws, s = ws ++ trimStart s.
Proof.
  induction s as [|c s [ws IH]]; simpl.
  - now exists [].
  - destruct (isWhiteSpace c).
    + exists (c :: ws). simpl. now f_equal.
    + now exists [].
Qed.

Lemma trimEnd_noLead (s : jsstring) : noLead s -> noLead (trimEnd s).
Proof.
  intros H. unfold trimEnd.
  destruct (trimStart_suffix (rev s)) as [ws E].
  apply (f_equal (@rev N)) in E. rewrite rev_involutive, rev_app_distr in E.
  destruct (rev (trimStart (rev s))) as [|c r]; [exact I|].
  rewrite E in H. exact H.
Qed.

Lemma trim_idempotent (s : jsstring) : trim (trim s) = trim s.
Proof.
  unfold trim.
  rewrite (trimStart_id (trimEnd (trimStart s)))
    by (apply trimEnd_noLead, trimStart_noLead).
  unfold trimEnd. rewrite rev_involutive.
  now rewrite (trimStart_id _ (trimStart_noLead _)).
Qed.

(** X19.  In every state the widget can reach, each user entry of the
    transcript is a non-empty text without white space at either end: it
    is what [trim] returns, and trimming it again changes nothing. *)
Theorem X19_user_entries_are_trimmed (w : World) (m : Message) :
  reachable env w ->
  In m (messages (render w)) ->
  role m = user ->
  content m <> [] /\ trim (content m) = content m.
Proof.
  intros Hr. revert m.
  induction Hr as [visible|w ev Hr IH|w k Hr IH]; intros m Hin Hu.
  3: { destruct (responded_spec k w) as ([Hm|Hm] & _); rewrite Hm in Hin.
       - auto.
       - apply filter_In in Hin as [Hin _]. auto. }
  - exfalso. unfold mount, useEffect_isVisible, run, render in Hin.
    destruct visible; simpl in Hin; destruct Hin as [<-|[]]; discriminate.
  - destruct (isRequestEvent ev) eqn:Hev.
    + destruct ev as [| |toastId|k outcome| | | | | | | ]; try discriminate.
      * destruct (accepted env (render w)) eqn:Hacc.
        -- rewrite (submit_accepted_world _ _ Hacc) in Hin.
           unfold render in Hin. simpl in Hin.
           apply in_app_or in Hin as [Hin|[<-|[<-|[]]]]; [auto| |discriminate].
           simpl. apply accepted_iff in Hacc as (Hne & _).
           split; [exact Hne|apply trim_idempotent].
        -- destruct (submit_rejected_world w toastId Hacc) as (Hi & _).
           unfold render in *. rewrite Hi in Hin. auto.
      * destruct (settle_cases env w k outcome) as [H|(id & _ & H)];
          rewrite H in Hin; [auto|].
        unfold render in Hin. simpl in Hin.
        apply in_app_or in Hin as [Hin|[<-|[]]].
        -- apply filter_In in Hin as [Hin _]. auto.
        -- rewrite settledEntry_assistant in Hu. discriminate.
    + destruct (step_sameConversation w ev Hev) as (Hm & _).
      rewrite Hm in Hin. auto.
Qed.

(** *** The drag handle *)

Lemma mouseMoves_spec (ls : list Cells) (clientY : Z) i l :
  exists i',
    forEach ls (fun c => handleMouseMove c clientY) i l = (Ok tt, i', l)
    /\ chatHeight (cells i')
       = (if existsb isResizing ls then dragHeight i clientY
          else chatHeight (cells i))
    /\ startYRef i' = startYRef i
    /\ startHeightRef i' = startHeightRef i
    /\ listeners i' = listeners i.
Proof.
  revert i. induction ls as [|c ls IH]; intros i.
  - exists i. repeat split.
  - cbn [forEach bind Handler_Monad existsb].
    unfold handleMouseMove at 1. destruct (isResizing c); cbn [negb orb].
    + cbn [bind Handler_Monad gets setChatHeight onCells modify].
      match goal with
      | |- context [forEach ls _ ?j l] =>
          destruct (IH j) as (i' & E & Hh & Hy & Hs & Hl)
      end.
      exists i'. rewrite E. repeat split; auto.
      rewrite Hh. unfold dragHeight. simpl.
      destruct (existsb isResizing ls); reflexivity.
    + cbn [ret Handler_Monad]. apply IH.
Qed.

(** X20.  A drag that begins while no drag is under way does not resize
    the panel: however the pointer moves after the press, the height stays
    what it was. *)
Theorem X20_drag_from_rest_keeps_height (w : World) (startY : Z)
    (ys : list Z) :
  isResizing (render w) = false ->
  listeners (instance w) = [] ->
  chatHeight (render (steps env (step env w (MouseDown startY))
                        (map MouseMove ys)))
  = chatHeight (render w).
Proof. apply drag_from_rest_keeps_height. Qed.

(** X21.  A press on the handle while [isResizing] is still set (the
    release of an earlier press was missed) does start a working drag: the
    next pointer move sets the height to the height at the press plus the
    upward distance moved, kept within 200 and 600. *)
Theorem X21_drag_after_missed_release (w : World) (startY clientY : Z) :
  isResizing (render w) = true ->
  chatHeight (render (steps env w [MouseDown startY; MouseMove clientY]))
  = clamp (chatHeight (render w) + (startY - clientY)) 200 600.
Proof.
  intros Hres.
  change (steps env w [MouseDown startY; MouseMove clientY])
    with (step env (step env w (MouseDown startY)) (MouseMove clientY)).
  set (w1 := step env w (MouseDown startY)).
  assert (H1 : startYRef (instance w1) = startY
               /\ startHeightRef (instance w1) = chatHeight (render w)
               /\ In (render w) (listeners (instance w1))).
  { subst w1. simpl. unfold run, handleMouseDown. simpl. repeat split.
    destruct (in_dec Cells_eq_dec (render w) (listeners (instance w)));
      [assumption|]. apply in_or_app. right. now left. }
  destruct H1 as (Hy & Hs & Hin).
  cbn [step]. unfold run.
  destruct (mouseMoves_spec (listeners (instance w1)) clientY
              (instance w1) (calls w1)) as (i' & E & Hh & _).
  rewrite E. unfold render. simpl. rewrite Hh.
  assert (Hex : existsb isResizing (listeners (instance w1)) = true).
  { apply existsb_exists. exists (render w). auto. }
  rewrite Hex. unfold dragHeight. rewrite Hy, Hs. apply clamp_max_min.
Qed.

Lemma removeAll_nil (xs ls : list Cells) :
  (forall x, In x ls -> In x xs) ->
  fold_left (fun acc x => remove Cells_eq_dec x acc) xs ls = [].
Proof.
  revert ls. induction xs as [|a xs IH]; intros ls H; simpl.
  - destruct ls as [|x ls]; [reflexivity|]. destruct (H x). now left.
  - apply IH. intros x Hx. apply in_remove in Hx as [Hx Hne].
    destruct (H x Hx) as [<-|Hin]; [congruence|exact Hin].
Qed.

Lemma mouseUps_spec (xs : list Cells) i l :
  exists i',
    forEach xs handleMouseUp i l = (Ok tt, i', l)
    /\ listeners i'
       = fold_left (fun acc x => remove Cells_eq_dec x acc) xs (listeners i)
    /\ isResizing (cells i')
       = match xs with [] => isResizing (cells i) | _ :: _ => false end
    /\ chatHeight (cells i') = chatHeight (cells i).
Proof.
  revert i. induction xs as [|c xs IH]; intros i.
  - exists i. repeat split.
  - cbn [forEach bind Handler_Monad].
    unfold handleMouseUp at 1.
    cbn [bind Handler_Monad setIsResizing onCells modify removeListeners].
    match goal with
    | |- context [forEach xs _ ?j l] =>
        destruct (IH j) as (i' & E & Hl & Hr & Hh)
    end.
    exists i'. rewrite E. repeat split; auto.
    rewrite Hr. destruct xs; reflexivity.
Qed.

(** X22.  A release of the pointer ends every drag: afterwards no drag
    listener is registered, [isResizing] is false if one was, the height is
    what it was, and later pointer moves do nothing at all. *)
Theorem X22_release_ends_the_drag (w : World) :
  let w' := step env w MouseUp in
  listeners (instance w') = []
  /\ (listeners (instance w) <> [] -> isResizing (render w') = false)
  /\ chatHeight (render w') = chatHeight (render w)
  /\ forall clientY, step env w' (MouseMove clientY) = w'.
Proof.
  intros w'.
  assert (H : listeners (instance w') = []
              /\ (listeners (instance w) <> [] -> isResizing (render w') = false)
              /\ chatHeight (render w') = chatHeight (render w)).
  { subst w'. cbn [step]. unfold run.
    destruct (mouseUps_spec (listeners (instance w)) (instance w) (calls w))
      as (i' & E & Hl & Hr & Hh).
    rewrite E. unfold render. simpl. repeat split.
    - rewrite Hl. apply removeAll_nil. auto.
    - intros Hne. rewrite Hr. destruct (listeners (instance w)); congruence.
    - exact Hh. }
  destruct H as (Hl & Hr & Hh). repeat split; auto.
  intros clientY. cbn [step]. unfold run. rewrite Hl. simpl.
  now destruct w'.
Qed.

(** *** What is on screen *)

(** [marked.parse], as in the view. *)
Variable marked_parse : jsstring -> jsstring.

(** X23.  The submit button is disabled exactly when [handleSubmit] would
    return at its first guard.  Submitting with the button disabled
    changes nothing and sends nothing; with the button enabled the
    question is accepted when the credential is configured, and otherwise
    only the configuration error is raised. *)
Theorem X23_submit_button_matches_guard (w : World) (toastId : N) :
  let form := renderForm (render w) in
  let w' := step env w (Submit toastId) in
  (submitDisabled form = true ->
   instance w' = instance w
   /\ inFlight w' = inFlight w
   /\ newCalls w w' = [PreventDefault])
  /\ (submitDisabled form = false ->
      hasApiKey env = true ->
      messages (render w')
      = messages (render w)
        ++ [ {| role := user; content := trim (input (render w)) |};
             {| role := assistant; content := Thinking |} ]
      /\ inFlight w' = inFlight w ++ [toastId])
  /\ (submitDisabled form = false ->
      hasApiKey env = false ->
      instance w' = instance w
      /\ inFlight w' = inFlight w
      /\ newCalls w w' = [PreventDefault; ToastError configurationError]).
Proof.
  intros form w'. subst form w'. unfold renderForm. cbn [submitDisabled].
  assert (Hrej : accepted env (render w) = false ->
                 instance (step env w (Submit toastId)) = instance w
                 /\ inFlight (step env w (Submit toastId)) = inFlight w
                 /\ newCalls w (step env w (Submit toastId))
                    = PreventDefault ::
                        (if nonEmpty (trim (input (render w)))
                            && negb (isProcessing (render w))
                         then [ToastError configurationError] else [])).
  { intros Hacc. unfold newCalls. cbn [step]. unfold submit.
    rewrite (handleSubmit_rejected _ _ _ _ _ Hacc). simpl.
    rewrite skipn_app, skipn_all, Nat.sub_diag, app_nil_r. auto. }
  split; [|split].
  - intros Hd.
    assert (Hg : nonEmpty (trim (input (render w)))
                 && negb (isProcessing (render w)) = false).
    { destruct (isProcessing (render w)); [apply andb_false_r|].
      simpl in Hd. apply negb_true_iff in Hd. now rewrite Hd. }
    destruct Hrej as (Hi & Hf & Hc).
    + unfold accepted. now rewrite Hg.
    + rewrite Hg in Hc. auto.
  - intros Hd Hkey.
    apply orb_false_iff in Hd as [Hp Hb]. apply negb_false_iff in Hb.
    rewrite submit_accepted_world; [split; reflexivity|].
    unfold accepted. now rewrite Hb, Hp, Hkey.
  - intros Hd Hkey.
    apply orb_false_iff in Hd as [Hp Hb]. apply negb_false_iff in Hb.
    destruct Hrej as (Hi & Hf & Hc).
    + unfold accepted. rewrite Hkey. apply andb_false_r.
    + rewrite Hb, Hp in Hc. auto.
Qed.


Lemma removelast_In {A} (x : A) (l : list A) :
  In x (removelast l) -> In x l.
Proof.
  induction l as [|a l IH]; simpl; [auto|].
  destruct l as [|b l]; [intros []|].
  intros [->|H]; [now left|right; now apply IH].
Qed.

Lemma idle_transcript (w : World) :
  reachable env w ->
  isProcessing (render w) = false ->
  forall m, In m (removelast (messages (render w))) -> content m <> Thinking.
Proof.
  intros Hr. induction Hr as [visible|w ev Hr IH|w k Hr IH]; intros Hp m Hin.
  3: { destruct (responded_spec k w) as ([Hm|Hm] & _ & Hp' & _);
         rewrite Hm in Hin; rewrite Hp' in Hp.
       - auto.
       - apply removelast_In in Hin.
         now apply filter_notThinking_In in Hin. }
  - exfalso. unfold mount, useEffect_isVisible, run, render in Hin.
    destruct visible; simpl in Hin; exact Hin.
  - destruct (isRequestEvent ev) eqn:Hev.
    + destruct ev as [| |toastId|k outcome| | | | | | | ]; try discriminate.
      * destruct (accepted env (render w)) eqn:Hacc.
        -- rewrite (submit_accepted_world _ _ Hacc) in Hp. discriminate.
        -- destruct (submit_rejected_world w toastId Hacc) as (Hi & _).
           unfold render in *. rewrite Hi in Hp, Hin. auto.
      * destruct (settle_cases env w k outcome) as [H|(id & _ & H)];
          rewrite H in Hp, Hin; [auto|].
        unfold render in Hin. simpl in Hin. rewrite removelast_last in Hin.
        now apply filter_notThinking_In in Hin.
    + destruct (step_sameConversation w ev Hev) as (Hm & Hp' & _).
      rewrite Hm in Hin. rewrite Hp' in Hp. auto.
Qed.

(** X25.  While no request is pending, no entry of the transcript other
    than its last one has the content [Thinking...], so no bubble other
    than the last one shows the animated dots. *)
Theorem X25_idle_transcript_has_no_placeholder (w : World) (m : Message) :
  reachable env w ->
  isProcessing (render w) = false ->
  In m (removelast (messages (render w))) ->
  content m <> Thinking
  /\ bubbleBody (renderMessage marked_parse m) <> ThinkingDots.
Proof.
  intros Hr Hp Hin.
  assert (H : content m <> Thinking) by (now apply (idle_transcript w Hr Hp)).
  split; [exact H|].
  unfold renderMessage. cbn [bubbleBody].
  apply eqb_neq in H. rewrite H. discriminate.
Qed.

End More.

(** ** The further properties at work *)

Ltac reach :=
  unfold Scenario.asked, Scenario.typed, steps; cbn [fold_left];
  repeat apply reach_step; apply reach_mount.

Lemma X1_witness :
  (isProcessing (render Scenario.asked) = false /\ inFlight Scenario.asked = [])
  \/ (isProcessing (render Scenario.asked) = true
      /\ exists id, inFlight Scenario.asked = [id]).
Proof. apply (X1_one_request_at_a_time Scenario.env). reach. Defined.

Lemma X2_witness : (200 <= chatHeight (render Scenario.asked) <= 600)%Z.
Proof. apply (X2_height_within_bounds Scenario.env). reach. Defined.


Lemma X4_witness :
  messages (render (step Scenario.envNoKey
                      (step Scenario.envNoKey (mount true)
                         (Change (lit " What is mitosis? ")))
                      (Submit 1)))
  = [greeting]
  /\ isProcessing (render (step Scenario.envNoKey
                             (step Scenario.envNoKey (mount true)
                                (Change (lit " What is mitosis? ")))
                             (Submit 1))) = false
  /\ inFlight (step Scenario.envNoKey
                 (step Scenario.envNoKey (mount true)
                    (Change (lit " What is mitosis? ")))
                 (Submit 1)) = []
  /\ filter isFetch (calls (step Scenario.envNoKey
                              (step Scenario.envNoKey (mount true)
                                 (Change (lit " What is mitosis? ")))
                              (Submit 1))) = [].
Proof.
  apply (X4_without_key_nothing_is_sent Scenario.envNoKey).
  - reflexivity.
  - repeat apply reach_step. apply reach_mount.
Defined.

Lemma X5_witness :
  method Scenario.askedInit = lit "POST"
  /\ contentType Scenario.askedInit = lit "application/json"
  /\ exists key,
       GROQ_API_KEY Scenario.env = Some key /\ key <> []
       /\ authorization Scenario.askedInit = lit "Bearer " ++ key.
Proof.
  apply (X5_request_headers Scenario.env Scenario.asked GROQ_API_URL).
  - reach.
  - vm_compute. right. right. left. reflexivity.
Defined.

Lemma X6_witness :
  filter isFetch (calls (step Scenario.env Scenario.asked
                           (Settle 0 Scenario.tooManyRequests)))
  = filter isFetch (calls Scenario.asked).
Proof.
  apply (X6_only_submit_fetches Scenario.env). intros toastId. discriminate.
Defined.

Lemma X7_witness :
  (exists answer,
      role answer = assistant
      /\ messages (render (steps Scenario.env Scenario.typed
                             [Submit 1; Settle 0 Scenario.tooManyRequests]))
         = filter notThinking (messages (render Scenario.typed))
           ++ [ {| role := user;
                   content := trim (input (render Scenario.typed)) |};
                answer ])
  /\ input (render (steps Scenario.env Scenario.typed
                      [Submit 1; Settle 0 Scenario.tooManyRequests])) = []
  /\ isProcessing (render (steps Scenario.env Scenario.typed
                             [Submit 1; Settle 0 Scenario.tooManyRequests]))
     = false
  /\ inFlight (steps Scenario.env Scenario.typed
                 [Submit 1; Settle 0 Scenario.tooManyRequests]) = [].
Proof.
  apply (X7_one_turn Scenario.env Scenario.typed 1 Scenario.tooManyRequests).
  - reflexivity.
  - reflexivity.
  - vm_compute. discriminate.
Defined.

Lemma X8_witness :
  exists response data choices choice message text,
    Scenario.replies (lit "Hello") = Resolved response
    /\ ok response = true
    /\ response_json response = Ok data
    /\ Js.getProp (typeErrorMessage Scenario.env) (Some data) (lit "choices")
       = Ok choices
    /\ Js.getIndex0 (typeErrorMessage Scenario.env) choices = Ok choice
    /\ Js.getProp (typeErrorMessage Scenario.env) choice (lit "message")
       = Ok message
    /\ Js.getProp (typeErrorMessage Scenario.env) message (lit "content")
       = Ok (Some (JString text))
    /\ trim text <> []
    /\ last (messages (render (step Scenario.env Scenario.asked
                                 (Settle 0 (Scenario.replies (lit "Hello"))))))
            greeting
       = {| role := assistant; content := text |}.
Proof.
  apply (X8_success_needs_wellformed_body Scenario.env Scenario.asked 0 1).
  - reflexivity.
  - vm_compute. right. left. reflexivity.
Defined.

Lemma X9_witness :
  exists result,
    newCalls Scenario.asked
      (step Scenario.env Scenario.asked (Settle 0 Scenario.tooManyRequests))
    = (if 1 =? 0 then [] else [ToastDismiss 1]) ++ [result]
    /\ (result = ToastSuccess (lit "Response generated successfully!")
        \/ (result = ToastError (lit "Failed to generate response")
            /\ exists text,
                 last (messages (render (step Scenario.env Scenario.asked
                                           (Settle 0 Scenario.tooManyRequests))))
                      greeting
                 = {| role := assistant;
                      content := text ++ retrySuggestion |})).
Proof.
  apply (X9_settlement_toasts Scenario.env Scenario.asked 0 1).
  reflexivity.
Defined.

(** A 500 response whose error message happens to contain [429] is shown
    as a rate limit. *)
Lemma X10_witness :
  last (messages (render (step Scenario.env Scenario.asked
                            (Settle 0 Scenario2.serverError)))) greeting
  = {| role := assistant;
       content := lit "Rate limit exceeded. Please wait a moment and try again."
                  ++ retrySuggestion |}.
Proof.
  unfold Scenario2.serverError.
  refine (eq_trans
            (X10_error_body_message_decides Scenario.env Scenario.asked 0 1 _ _
               [ (lit "error",
                  JObject [ (lit "message", JString (lit "upstream 429")) ]) ]
               [ (lit "message", JString (lit "upstream 429")) ]
               (lit "upstream 429") _ _ _ _ _ _) _).
  - reflexivity.
  - reflexivity.
  - reflexivity.
  - reflexivity.
  - reflexivity.
  - vm_compute. discriminate.
  - vm_compute. reflexivity.
Defined.

Lemma X11_witness :
  last (messages (render (step Scenario.env Scenario.asked
                            (Settle 0 (Scenario2.plainText 503
                                         (lit "Service Unavailable"))))))
       greeting
  = {| role := assistant;
       content := lit "Error: HTTP 503: Service Unavailable"
                  ++ retrySuggestion |}.
Proof.
  unfold Scenario2.plainText.
  refine (eq_trans
            (X11_plain_error_body Scenario.env Scenario.asked 0 1 _
               (lit "Service Unavailable")
               (SyntaxError (lit "Unexpected token")) _ _ _ _) _).
  - reflexivity.
  - reflexivity.
  - reflexivity.
  - right. exists (lit "Unexpected token"). reflexivity.
  - vm_compute. reflexivity.
Defined.

Lemma X12_witness :
  last (messages (render (step Scenario.env Scenario.asked
                            (Settle 0 (Scenario2.emptyObject 500))))) greeting
  = {| role := assistant;
       content := lit "Error: Failed to get response from AI"
                  ++ retrySuggestion |}.
Proof.
  apply (X12_error_body_without_message Scenario.env Scenario.asked 0 1 _
           (lit "{}") []); reflexivity.
Defined.

Lemma X13_witness :
  content (last (messages (render (step Scenario.env Scenario.asked
                                     (Settle 0 (Scenario2.plainText 401
                                                  (lit "denied"))))))
             greeting)
  = lit "Authentication error. The Groq API key may be invalid."
    ++ retrySuggestion.
Proof.
  unfold Scenario2.plainText.
  destruct (X13_status_recognised_in_plain_body Scenario.env Scenario.asked
              0 1 {| status := 401;
                     bodyRead := BodyText (lit "denied")
                                   (SyntaxError (lit "Unexpected token")) |}
              (lit "denied") (lit "Unexpected token"))
    as (H & _).
  - reflexivity.
  - reflexivity.
  - vm_compute. reflexivity.
  - vm_compute. reflexivity.
  - apply H. reflexivity.
Defined.

Lemma X14_witness :
  last (messages (render (step Scenario.env Scenario.asked
          (Settle 0 (Rejected (ErrorObj (lit "Failed to fetch"))))))) greeting
  = {| role := assistant;
       content := lit "Network error. Please check your internet connection and try again."
                  ++ retrySuggestion |}.
Proof.
  destruct (X14_transport_failure Scenario.env Scenario.asked 0 1) as (H & _).
  - reflexivity.
  - apply H. left. vm_compute. reflexivity.
Defined.

Lemma X15_witness :
  last (messages (render (step Scenario.env Scenario.asked
                            (Settle 0 (Scenario2.emptyObject 200))))) greeting
  = {| role := assistant;
       content := lit "Error: Invalid response format from API"
                  ++ retrySuggestion |}.
Proof.
  apply (X15_malformed_success_body Scenario.env Scenario.asked 0 1 _ []).
  - reflexivity.
  - reflexivity.
  - reflexivity.
  - left. reflexivity.
Defined.

Lemma X16_witness :
  last (messages (render (step Scenario.env Scenario.asked
                            (Settle 0 (Scenario.replies (lit "  "))))))
       greeting
  = {| role := assistant;
       content := lit "Error: Empty response from AI" ++ retrySuggestion |}.
Proof.
  unfold Scenario.replies.
  refine (X16_empty_reply Scenario.env Scenario.asked 0 1 _
            _ _ [] _ _ _ _ _ _ _).
  - reflexivity.
  - reflexivity.
  - reflexivity.
  - reflexivity.
  - reflexivity.
  - right. exists (lit "  "). split; reflexivity.
Defined.

Lemma X18_witness :
  calls (step Scenario.env Scenario.asked ClickClose)
  = calls Scenario.asked ++ [OnToggle]
  /\ filter isOnToggle (calls (step Scenario.env Scenario.asked ClickMinimize))
     = filter isOnToggle (calls Scenario.asked).
Proof.
  split.
  - apply (X18_only_close_calls_onToggle Scenario.env Scenario.asked ClickClose).
    reflexivity.
  - apply (X18_only_close_calls_onToggle Scenario.env Scenario.asked
             ClickMinimize).
    discriminate.
Defined.

Lemma X19_witness :
  lit "What is mitosis?" <> []
  /\ trim (lit "What is mitosis?") = lit "What is mitosis?".
Proof.
  apply (X19_user_entries_are_trimmed Scenario.env Scenario.asked
           {| role := user; content := lit "What is mitosis?" |}).
  - reach.
  - vm_compute. right. left. reflexivity.
  - reflexivity.
Defined.

Lemma X20_witness :
  chatHeight (render (steps Scenario.env
                        (step Scenario.env (mount true) (MouseDown 300))
                        (map MouseMove [200; 100]%Z)))
  = chatHeight (render (mount true)).
Proof.
  apply (X20_drag_from_rest_keeps_height Scenario.env (mount true) 300
           [200; 100]%Z); reflexivity.
Defined.

Lemma X21_witness :
  chatHeight (render (steps Scenario.env
                        (step Scenario.env (mount true) (MouseDown 300))
                        [MouseDown 350; MouseMove 250]))
  = clamp (400 + (350 - 250)) 200 600.
Proof.
  apply (X21_drag_after_missed_release Scenario.env
           (step Scenario.env (mount true) (MouseDown 300)) 350 250).
  reflexivity.
Defined.

Lemma X22_witness :
  listeners (instance (step Scenario.env Scenario2.pressedTwice MouseUp)) = []
  /\ isResizing (render (step Scenario.env Scenario2.pressedTwice MouseUp))
     = false
  /\ step Scenario.env (step Scenario.env Scenario2.pressedTwice MouseUp)
       (MouseMove 100)
     = step Scenario.env Scenario2.pressedTwice MouseUp.
Proof.
  destruct (X22_release_ends_the_drag Scenario.env Scenario2.pressedTwice)
    as (H1 & H2 & _ & H4).
  split; [exact H1|]. split; [|apply H4].
  apply H2. vm_compute. discriminate.
Defined.

Lemma X23_witness :
  submitDisabled (renderForm (render (mount true))) = true
  /\ instance (step Scenario.env (mount true) (Submit 1)) = instance (mount true)
  /\ submitDisabled (renderForm (render Scenario.typed)) = false
  /\ inFlight (step Scenario.env Scenario.typed (Submit 1)) = [1].
Proof.
  destruct (X23_submit_button_matches_guard Scenario.env (mount true) 1)
    as (H1 & _).
  destruct (X23_submit_button_matches_guard Scenario.env Scenario.typed 1)
    as (_ & H2 & _).
  split; [reflexivity|]. split; [apply H1; reflexivity|].
  split; [reflexivity|]. apply H2; reflexivity.
Defined.


Lemma X25_witness :
  content greeting <> Thinking
  /\ bubbleBody (renderMessage Scenario2.marked_parse greeting) <> ThinkingDots.
Proof.
  apply (X25_idle_transcript_has_no_placeholder Scenario.env
           Scenario2.marked_parse
           (step Scenario.env Scenario.asked
              (Settle 0 (Scenario.replies (lit "Hello"))))).
  - apply reach_step. reach.
  - reflexivity.
  - vm_compute. left. reflexivity.
Defined.
